(** * BookVerse core: OIDC discovery, JWKS cache and JWT validation

    Shallow embedding of
    - [bookverse_core/auth/oidc.py]     (discovery, key-set cache, key selection)
    - [bookverse_core/auth/jwt_auth.py] ([AuthUser], [validate_jwt_token])

    The module-level globals of [oidc.py] become an explicit [State]; every
    call of [requests.get] is recorded in the state's [trace]; Python
    exceptions are values of [PyExc] carried by [Raise].

    The coroutines never suspend between their first and last statement
    ([requests.get] blocks, and the only [await] is on another of these
    coroutines), so a call runs from start to end on the event loop and is
    modelled as one state transformer.  [logger] calls change neither a
    result nor a global and are left out. *)

From Stdlib Require Import List String Ascii Bool ZArith QArith Lia Lqa.
Import ListNotations.
Local Open Scope string_scope.
Local Open Scope Q_scope.
Set Warnings "-register-all".

(** ** Python values as produced by [json.loads] / [response.json()] *)

(** A parsed JSON document.  [JNull] is Python's [None]; a number is kept as
    the exact rational it denotes ([int] and finite [float] alike; [nan] and
    the infinities are outside the model); a [dict] is its item list in
    insertion order, one item per key. *)
Inductive json : Type :=
| JNull
| JBool (b : bool)
| JNum (q : Q)
| JStr (s : string)
| JList (items : list json)
| JObj (items : list (string * json)).

Definition dict := list (string * json).

(** [d.get(k)] on the item list: [None] when the key is absent. *)
Fixpoint lookup {A : Type} (k : string) (d : list (string * A)) : option A :=
  match d with
  | [] => None
  | (k', v) :: rest => if String.eqb k' k then Some v else lookup k rest
  end.

(** [d.get(k, default)] *)
Definition dict_get (d : dict) (k : string) (default : json) : json :=
  match lookup k d with
  | Some v => v
  | None => default
  end.

(** [bool(v)]: Python truthiness of a JSON value. *)
Definition truthy (v : json) : bool :=
  match v with
  | JNull => false
  | JBool b => b
  | JNum q => negb (Qeq_bool q 0)
  | JStr s => negb (String.eqb s "")
  | JList l => match l with [] => false | _ :: _ => true end
  | JObj d => match d with [] => false | _ :: _ => true end
  end.

Definition bool_num (b : bool) : Q := if b then 1 else 0.

(** [a == b] on JSON values: [bool] compares as the number it is, lists
    compare item by item, dicts compare as mappings whatever the order. *)
Fixpoint py_eq (a b : json) {struct a} : bool :=
  match a, b with
  | JNull, JNull => true
  | JBool x, JBool y => Bool.eqb x y
  | JBool x, JNum q => Qeq_bool (bool_num x) q
  | JNum q, JBool y => Qeq_bool q (bool_num y)
  | JNum p, JNum q => Qeq_bool p q
  | JStr s, JStr t => String.eqb s t
  | JList xs, JList ys =>
      (fix items_eq (xs ys : list json) {struct xs} : bool :=
         match xs, ys with
         | [], [] => true
         | x :: xs', y :: ys' => py_eq x y && items_eq xs' ys'
         | _, _ => false
         end) xs ys
  | JObj xs, JObj ys =>
      Nat.eqb (List.length xs) (List.length ys)
      && (fix each_item (xs : list (string * json)) : bool :=
            match xs with
            | [] => true
            | (k, v) :: xs' =>
                match lookup k ys with
                | Some w => py_eq v w
                | None => false
                end && each_item xs'
            end) xs
  | _, _ => false
  end.

(** ** Strings *)

(** A Python [str] is modelled by a [string] holding one code point below 256
    per character.  [is_space] is [str.isspace] on that range. *)
Definition is_space (c : ascii) : bool :=
  let n := nat_of_ascii c in
  ((9 <=? n) && (n <=? 13) || (28 <=? n) && (n <=? 32)
   || (n =? 133) || (n =? 160))%nat.

(** [s.split()] with no argument: maximal runs of non-space characters.
    [word] is the run read so far. *)
Fixpoint split_from (s : string) (word : string) : list string :=
  match s with
  | EmptyString => if String.eqb word "" then [] else [word]
  | String c rest =>
      if is_space c
      then (if String.eqb word "" then split_from rest ""
            else word :: split_from rest "")
      else split_from rest (word ++ String c "")
  end.

Definition str_split (s : string) : list string := split_from s "".

(** [x in l] for a string [x] and a list of strings [l]. *)
Definition str_in (x : string) (l : list string) : bool :=
  existsb (String.eqb x) l.

(** [a > b] on exact numbers.  Timestamps ([datetime.now().timestamp()]) and
    their differences are taken as the exact rationals they denote; the
    rounding of [float] arithmetic is outside the model. *)
Definition Qgt_bool (a b : Q) : bool := negb (Qle_bool a b).

(** ** Exceptions and results *)

(** The exception classes the two modules raise or catch.  A [ValueError]
    keeps its message text and, for an f-string, the value interpolated at
    its end.  [JWTError] stands for [jose.JWTError] and its subclasses;
    [RequestException] for whatever [requests.get], [raise_for_status] or
    [response.json()] raises; [OtherException] for any other class coming
    out of a library. *)
Inductive PyExc : Type :=
| ValueError (msg : string) (arg : option json)
| AttributeError
| TypeError
| JWTError
| RequestException
| OtherException
| HTTPException (status_code : Z) (detail : string)
                (headers : option (list (string * string))).

Inductive result (A : Type) : Type :=
| Ok (a : A)
| Raise (e : PyExc).
Arguments Ok {A} a.
Arguments Raise {A} e.

Definition HTTP_503_SERVICE_UNAVAILABLE : Z := 503.
Definition HTTP_401_UNAUTHORIZED : Z := 401.

(** ** Environment: configuration read at import time and the libraries *)

(** The constants come from [os.getenv] (both modules read the same
    [OIDC_AUTHORITY]).  [respond n url] is what the [n]-th call of
    [requests.get] of the process, made on [url], ends in once
    [raise_for_status] and [response.json()] have run: the parsed document, or
    [None] for any exception.  The two [jwt_*] fields are python-jose's
    [jwt.get_unverified_header] and [jwt.decode]; both return a mapping when
    they return, and [jwt_decode] stands for the library's verdict at the
    moment of the call (it reads the clock for [exp]): an [Env] describes
    the libraries during one call of [validate_jwt_token], and no statement
    compares the verdicts of calls made at different times. *)
Record Env : Type := mkEnv {
  OIDC_AUTHORITY : string;
  OIDC_AUDIENCE : string;
  JWT_ALGORITHM : string;
  JWKS_CACHE_DURATION : Z;
  DEVELOPMENT_MODE : bool;
  respond : nat -> json -> option json;
  jwt_get_unverified_header : string -> result dict;
  jwt_decode : string -> dict -> list string -> string -> string -> result dict
}.

(** ** State: the globals of [oidc.py] and the outbound requests so far *)

Inductive Event : Type :=
| HttpGet (url : json).

Record State : Type := mkState {
  _oidc_config : json;
  _jwks : json;
  _jwks_last_updated : option Q;
  trace : list Event
}.

(** The module as loaded: every cache is [None], nothing was requested. *)
Definition initial_state : State :=
  {| _oidc_config := JNull; _jwks := JNull; _jwks_last_updated := None;
     trace := [] |}.

(** ** A state-and-exception monad for the module's functions *)

Definition M (A : Type) : Type := State -> result A * State.

Definition ret {A} (a : A) : M A := fun st => (Ok a, st).

Definition raise {A} (e : PyExc) : M A := fun st => (Raise e, st).

Definition bind {A B} (m : M A) (k : A -> M B) : M B :=
  fun st =>
    match m st with
    | (Ok a, st') => k a st'
    | (Raise e, st') => (Raise e, st')
    end.

(** [try: m  except Exception as e: h e]; what [m] wrote before it raised
    stays written. *)
Definition try_except {A} (m : M A) (h : PyExc -> M A) : M A :=
  fun st =>
    match m st with
    | (Ok a, st') => (Ok a, st')
    | (Raise e, st') => h e st'
    end.

Definition lift {A} (r : result A) : M A := fun st => (r, st).

Definition gets {A} (f : State -> A) : M A := fun st => (Ok (f st), st).

Declare Scope py_scope.
Delimit Scope py_scope with py.
Notation "x <- m ;; k" := (bind m (fun x => k))
  (at level 100, m at next level, right associativity) : py_scope.
Notation "m ;;; k" := (bind m (fun _ => k))
  (at level 100, right associativity) : py_scope.
Local Open Scope py_scope.

Definition set_oidc_config (v : json) : M unit :=
  fun st => (Ok tt, {| _oidc_config := v; _jwks := _jwks st;
                       _jwks_last_updated := _jwks_last_updated st;
                       trace := trace st |}).

Definition set_jwks (v : json) : M unit :=
  fun st => (Ok tt, {| _oidc_config := _oidc_config st; _jwks := v;
                       _jwks_last_updated := _jwks_last_updated st;
                       trace := trace st |}).

Definition set_jwks_last_updated (t : option Q) : M unit :=
  fun st => (Ok tt, {| _oidc_config := _oidc_config st; _jwks := _jwks st;
                       _jwks_last_updated := t;
                       trace := trace st |}).

(** [requests.get(url, timeout=10)], [raise_for_status()], [.json()]:
    the call is appended to the trace, the environment decides its outcome. *)
Definition requests_get_json (E : Env) (url : json) : M json :=
  fun st =>
    let st' := {| _oidc_config := _oidc_config st; _jwks := _jwks st;
                  _jwks_last_updated := _jwks_last_updated st;
                  trace := trace st ++ [HttpGet url] |} in
    match respond E (List.length (trace st)) url with
    | Some doc => (Ok doc, st')
    | None => (Raise RequestException, st')
    end.

Definition is_None (v : json) : bool :=
  match v with JNull => true | _ => false end.

(** [v.get(k)] on a value that may not be a dict. *)
Definition py_get (v : json) (k : string) : result json :=
  match v with
  | JObj d => Ok (dict_get d k JNull)
  | _ => Raise AttributeError
  end.

(** ** oidc.py *)

Section Oidc.
Context (E : Env).

Definition discovery_url : json :=
  JStr (OIDC_AUTHORITY E ++ "/.well-known/openid_configuration").

(** The mock configuration of development mode, key by key. *)
Definition mock_configuration : json :=
  JObj
    [ ("issuer", JStr (OIDC_AUTHORITY E));
      ("authorization_endpoint", JStr (OIDC_AUTHORITY E ++ "/auth"));
      ("token_endpoint", JStr (OIDC_AUTHORITY E ++ "/token"));
      ("userinfo_endpoint", JStr (OIDC_AUTHORITY E ++ "/userinfo"));
      ("jwks_uri", JStr (OIDC_AUTHORITY E ++ "/.well-known/jwks.json"));
      ("scopes_supported",
       JList [JStr "openid"; JStr "profile"; JStr "email";
              JStr "bookverse:api"]);
      ("response_types_supported",
       JList [JStr "code"; JStr "token"; JStr "id_token"]);
      ("grant_types_supported",
       JList [JStr "authorization_code"; JStr "implicit";
              JStr "refresh_token"]);
      ("subject_types_supported", JList [JStr "public"]);
      ("id_token_signing_alg_values_supported", JList [JStr "RS256"]);
      ("demo_mode", JBool true) ].

Definition service_unavailable : PyExc :=
  HTTPException HTTP_503_SERVICE_UNAVAILABLE
                "Authentication service unavailable" None.

(** The [try] block of [get_oidc_configuration]. *)
Definition fetch_oidc_configuration : M unit :=
  doc <- requests_get_json E discovery_url ;;
  set_oidc_config doc.

Definition get_oidc_configuration : M json :=
  cached <- gets _oidc_config ;;
  (if is_None cached
   then try_except fetch_oidc_configuration
          (fun _ =>
             if DEVELOPMENT_MODE E
             then set_oidc_config mock_configuration
             else raise service_unavailable)
   else ret tt) ;;;
  gets _oidc_config.

(** The condition under which [get_jwks] enters its refresh branch. *)
Definition jwks_refresh_due (current_time : Q) (st : State) : bool :=
  is_None (_jwks st)
  || match _jwks_last_updated st with
     | None => true
     | Some last =>
         Qgt_bool (current_time - last) (inject_Z (JWKS_CACHE_DURATION E))
     end.

(** The [try] block of [get_jwks]. *)
Definition fetch_jwks (current_time : Q) : M unit :=
  oidc_config <- get_oidc_configuration ;;
  jwks_uri <- lift (py_get oidc_config "jwks_uri") ;;
  if negb (truthy jwks_uri)
  then raise (ValueError "No jwks_uri found in OIDC configuration" None)
  else
    doc <- requests_get_json E jwks_uri ;;
    set_jwks doc ;;;
    set_jwks_last_updated (Some current_time).

(** [current_time] is the value of [datetime.now().timestamp()] read by
    this call. *)
Definition get_jwks (current_time : Q) : M json :=
  due <- gets (jwks_refresh_due current_time) ;;
  (if due
   then try_except (fetch_jwks current_time)
          (fun _ =>
             cached <- gets _jwks ;;
             if is_None cached then raise service_unavailable else ret tt)
   else ret tt) ;;;
  gets _jwks.

Definition clear_cache : M unit :=
  fun st => (Ok tt, {| _oidc_config := JNull; _jwks := JNull;
                       _jwks_last_updated := None; trace := trace st |}).

(** [n] calls of [get_oidc_configuration] in a row, with what each
    returned or raised. *)
Fixpoint call_get_oidc_configuration (n : nat) (st : State)
  : list (result json) * State :=
  match n with
  | O => ([], st)
  | S n' =>
      let (r, st') := get_oidc_configuration st in
      let (rs, st'') := call_get_oidc_configuration n' st' in
      (r :: rs, st'')
  end.

End Oidc.

(** What [for key in v] walks over: the items of a list, the characters of
    a string, the keys of a dict; anything else is not iterable. *)
Definition py_iter (v : json) : result (list json) :=
  match v with
  | JList l => Ok l
  | JStr s => Ok (map (fun c => JStr (String c "")) (list_ascii_of_string s))
  | JObj d => Ok (map (fun kv => JStr (fst kv)) d)
  | _ => Raise TypeError
  end.

(** The loop of [get_public_key] over the keys still to visit. *)
Fixpoint scan_keys (kid : json) (keys : list json) : result dict :=
  match keys with
  | [] => Raise (ValueError "No matching key found for kid: " (Some kid))
  | JObj key :: rest =>
      if py_eq (dict_get key "kid" JNull) kid then Ok key
      else scan_keys kid rest
  | _ :: _ => Raise AttributeError
  end.

Definition missing_kid : PyExc :=
  ValueError "Token header missing 'kid' field" None.

Definition get_public_key (token_header : dict) (jwks : json) : result dict :=
  let kid := dict_get token_header "kid" JNull in
  if negb (truthy kid) then Raise missing_kid
  else
    match jwks with
    | JObj d =>
        match py_iter (dict_get d "keys" (JList [])) with
        | Ok keys => scan_keys kid keys
        | Raise e => Raise e
        end
    | _ => Raise AttributeError
    end.

(** ** jwt_auth.py *)

Record AuthUser : Type := mkAuthUser {
  claims : dict;
  user_id : json;
  email : json;
  name : json;
  roles : json;
  scopes : list string
}.

(** [c.get("scope", "").split() if c.get("scope") else []], the expression
    both [AuthUser.__init__] and [validate_jwt_token] evaluate.  Only a
    string has [split]. *)
Definition scope_list (c : dict) : result (list string) :=
  if truthy (dict_get c "scope" JNull)
  then match dict_get c "scope" (JStr "") with
       | JStr s => Ok (str_split s)
       | _ => Raise AttributeError
       end
  else Ok [].

(** [AuthUser.__init__] *)
Definition AuthUser_init (token_claims : dict) : result AuthUser :=
  let sub := dict_get token_claims "sub" JNull in
  let mail := dict_get token_claims "email" JNull in
  let nm := dict_get token_claims "name" mail in
  let rl := dict_get token_claims "roles" (JList []) in
  match scope_list token_claims with
  | Ok sc =>
      Ok {| claims := token_claims; user_id := sub; email := mail;
            name := nm; roles := rl; scopes := sc |}
  | Raise e => Raise e
  end.

Definition has_scope (u : AuthUser) (scope : string) : bool :=
  str_in scope (scopes u).

Definition bearer : option (list (string * string)) :=
  Some [("WWW-Authenticate", "Bearer")].

Definition invalid_token : PyExc :=
  HTTPException HTTP_401_UNAUTHORIZED "Invalid authentication token" bearer.

Definition authentication_failed : PyExc :=
  HTTPException HTTP_401_UNAUTHORIZED "Authentication failed" bearer.

Definition missing_sub : PyExc :=
  ValueError "Token missing 'sub' claim" None.

Definition missing_scope : PyExc :=
  ValueError "Token missing required 'bookverse:api' scope" None.

Section JwtAuth.
Context (E : Env).

(** The [try] block of [validate_jwt_token]. *)
Definition validate_claims (token : string) (current_time : Q) : M AuthUser :=
  header <- lift (jwt_get_unverified_header E token) ;;
  jwks <- get_jwks E current_time ;;
  public_key <- lift (get_public_key header jwks) ;;
  token_claims <- lift (jwt_decode E token public_key [JWT_ALGORITHM E]
                          (OIDC_AUDIENCE E) (OIDC_AUTHORITY E)) ;;
  if negb (truthy (dict_get token_claims "sub" JNull))
  then raise missing_sub
  else
    sc <- lift (scope_list token_claims) ;;
    if negb (str_in "bookverse:api" sc)
    then raise missing_scope
    else lift (AuthUser_init token_claims).

(** The two [except] clauses: [JWTError] first, then any [Exception]. *)
Definition on_validation_error (e : PyExc) : M AuthUser :=
  match e with
  | JWTError => raise invalid_token
  | _ => raise authentication_failed
  end.

Definition validate_jwt_token (token : string) (current_time : Q)
  : M AuthUser :=
  try_except (validate_claims token current_time) on_validation_error.

End JwtAuth.

(** ** Vocabulary of the specification *)

(** A cached document is a non-empty key set when its ["keys"] entry is a
    non-empty list. *)
Definition key_set_nonempty (v : json) : bool :=
  match v with
  | JObj d =>
      match lookup "keys" d with
      | Some (JList (_ :: _)) => true
      | _ => false
      end
  | _ => false
  end.

(** A JWK is a JSON object. *)
Definition is_jwk (v : json) : bool :=
  match v with JObj _ => true | _ => false end.

Definition kid_matches (kid : json) (k : json) : bool :=
  match k with
  | JObj key => py_eq (dict_get key "kid" JNull) kid
  | _ => false
  end.

(** The first key, in stored order, whose [kid] equals the wanted one. *)
Definition first_with_kid (kid : json) (keys : list json) : option json :=
  find (kid_matches kid) keys.

(** [kid] names no key of the key-set document [jwks]. *)
Definition kid_absent (kid : json) (jwks : json) : Prop :=
  exists d keys,
    jwks = JObj d
    /\ dict_get d "keys" (JList []) = JList keys
    /\ forallb is_jwk keys = true
    /\ first_with_kid kid keys = None.

(** The globals move together: no timestamp means no key set. *)
Definition cache_consistent (st : State) : Prop :=
  _jwks_last_updated st = None -> _jwks st = JNull.


(** Number of [requests.get] calls made between two states. *)
Definition requests_made (before after : State) : nat :=
  (List.length (trace after) - List.length (trace before))%nat.

(** ** A concrete deployment used to run the model *)

Definition demo_authority : string := "https://dev-auth.bookverse.com".

Definition demo_jwks_uri : json :=
  JStr (demo_authority ++ "/.well-known/jwks.json").

Definition demo_metadata : json :=
  JObj [ ("issuer", JStr demo_authority); ("jwks_uri", demo_jwks_uri) ].

Definition demo_key (kid : string) : json :=
  JObj [ ("kid", JStr kid); ("kty", JStr "RSA"); ("alg", JStr "RS256") ].

Definition demo_jwks : json :=
  JObj [ ("keys", JList [demo_key "k1"]) ].

Definition empty_jwks : json :=
  JObj [ ("keys", JList []) ].

(** A provider that answers: metadata on the discovery URL, [keys] on any
    other. *)
Definition net_up (keys : json) (n : nat) (url : json) : option json :=
  if py_eq url (JStr (demo_authority ++ "/.well-known/openid_configuration"))
  then Some demo_metadata
  else Some keys.

(** A provider that cannot be reached. *)
Definition net_down (n : nat) (url : json) : option json := None.

(** Four tokens, named after what they carry. *)
Definition demo_header (token : string) : result dict :=
  if String.eqb token "rotated"
  then Ok [ ("alg", JStr "RS256"); ("kid", JStr "k2") ]
  else if String.eqb token "garbage" then Raise JWTError
  else Ok [ ("alg", JStr "RS256"); ("kid", JStr "k1") ].

Definition demo_claims (token : string) : dict :=
  if String.eqb token "valid"
  then [ ("sub", JStr "u1"); ("aud", JStr "bookverse:api");
         ("iss", JStr demo_authority); ("scope", JStr "bookverse:api");
         ("exp", JNum 4102444800) ]
  else if String.eqb token "noscope"
  then [ ("sub", JStr "u1"); ("aud", JStr "bookverse:api");
         ("iss", JStr demo_authority); ("scope", JStr "openid profile");
         ("exp", JNum 4102444800) ]
  else [ ("aud", JStr "bookverse:api"); ("iss", JStr demo_authority);
         ("scope", JStr "bookverse:api"); ("exp", JNum 4102444800) ].

Definition demo_decode (token : string) (key : dict) (algorithms : list string)
    (audience issuer : string) : result dict :=
  if py_eq (dict_get key "kid" JNull) (JStr "k1")
  then Ok (demo_claims token)
  else Raise JWTError.

Definition demo_env (dev : bool) (net : nat -> json -> option json) : Env :=
  {| OIDC_AUTHORITY := demo_authority;
     OIDC_AUDIENCE := "bookverse:api";
     JWT_ALGORITHM := "RS256";
     JWKS_CACHE_DURATION := 3600;
     DEVELOPMENT_MODE := dev;
     respond := net;
     jwt_get_unverified_header := demo_header;
     jwt_decode := demo_decode |}.

(** Both caches filled at time 1000 by the two requests of a first call. *)
Definition warm_state : State :=
  {| _oidc_config := demo_metadata;
     _jwks := demo_jwks;
     _jwks_last_updated := Some 1000;
     trace := [ HttpGet (JStr (demo_authority
                               ++ "/.well-known/openid_configuration"));
                HttpGet demo_jwks_uri ] |}.

(** ** The rest of jwt_auth.py and oidc.py *)

(** [needle in hay] for two strings: [needle] occurs somewhere in [hay]. *)
Fixpoint str_contains (needle hay : string) : bool :=
  String.prefix needle hay
  || match hay with
     | EmptyString => false
     | String _ rest => str_contains needle rest
     end.

(** [AuthUser.has_role]: [role in self.roles], where [self.roles] is
    whatever the [roles] claim holds.  A list is searched item by item with
    [==], a string for a substring, a dict among its keys; any other value
    is not a container. *)
Definition has_role (u : AuthUser) (role : string) : result bool :=
  match roles u with
  | JList items => Ok (existsb (fun item => py_eq item (JStr role)) items)
  | JStr s => Ok (str_contains role s)
  | JObj d => Ok (existsb (fun kv => String.eqb (fst kv) role) d)
  | _ => Raise TypeError
  end.

Definition mock_user_claims : dict :=
  [ ("sub", JStr "dev-user");
    ("email", JStr "dev@bookverse.com");
    ("name", JStr "Development User");
    ("scope", JStr "openid profile email bookverse:api");
    ("roles", JList [JStr "user"; JStr "admin"]) ].

Definition create_mock_user : result AuthUser :=
  AuthUser_init mock_user_claims.

(** [" ".join(words)] *)
Fixpoint join_words (words : list string) : string :=
  match words with
  | [] => ""
  | [w] => w
  | w :: rest => w ++ " " ++ join_words rest
  end.

Definition no_space (w : string) : bool :=
  forallb (fun c => negb (is_space c)) (list_ascii_of_string w).

(** A scope name: not empty, no white space in it. *)
Definition is_word (w : string) : bool :=
  negb (String.eqb w "") && no_space w.

(** [doc] is the answer the environment gave to one of the requests of
    the trace. *)
Definition served (E : Env) (tr : list Event) (doc : json) : Prop :=
  exists n url,
    nth_error tr n = Some (HttpGet url) /\ respond E n url = Some doc.

(** No request is answered. *)
Definition all_down (E : Env) : Prop :=
  forall n url, respond E n url = None.

(** The entry points of the two modules, as a caller can invoke them one
    after the other. *)
Inductive Op : Type :=
| OpGetOidcConfiguration
| OpGetJwks (current_time : Q)
| OpValidate (token : string) (current_time : Q)
| OpClearCache.

Definition step (E : Env) (st : State) (o : Op) : State :=
  match o with
  | OpGetOidcConfiguration => snd (get_oidc_configuration E st)
  | OpGetJwks t => snd (get_jwks E t st)
  | OpValidate token t => snd (validate_jwt_token E token t st)
  | OpClearCache => snd (clear_cache st)
  end.

Definition run_ops (E : Env) (ops : list Op) (st : State) : State :=
  fold_left (step E) ops st.

(** What holds of the caches in every state the process can reach. *)
Definition caches_grounded (E : Env) (st : State) : Prop :=
  (_jwks_last_updated st = None -> _jwks st = JNull)
  /\ (_jwks st <> JNull -> served E (trace st) (_jwks st))
  /\ (_oidc_config st <> JNull ->
      served E (trace st) (_oidc_config st)
      \/ (DEVELOPMENT_MODE E = true
          /\ _oidc_config st = mock_configuration E))
  /\ (trace st = [] -> _oidc_config st = JNull /\ _jwks st = JNull).

(** The [try] block of [validate_jwt_token] cut at its two effectful steps:
    what it makes of decoded claims, and of a parsed header with a key set.
    Used to reason about [validate_jwt_token]; both are plain unfoldings of
    its body. *)
Definition check_claims (token_claims : dict) : result AuthUser :=
  if negb (truthy (dict_get token_claims "sub" JNull))
  then Raise missing_sub
  else
    match scope_list token_claims with
    | Ok sc =>
        if negb (str_in "bookverse:api" sc) then Raise missing_scope
        else AuthUser_init token_claims
    | Raise e => Raise e
    end.

Definition check_token (E : Env) (token : string) (header : dict)
    (jwks : json) : result AuthUser :=
  match get_public_key header jwks with
  | Ok public_key =>
      match jwt_decode E token public_key [JWT_ALGORITHM E]
              (OIDC_AUDIENCE E) (OIDC_AUTHORITY E) with
      | Ok token_claims => check_claims token_claims
      | Raise e => Raise e
      end
  | Raise e => Raise e
  end.

(** The two [except] clauses applied to an outcome of the [try] block. *)
Definition as_http_401 (r : result AuthUser) : result AuthUser :=
  match r with
  | Ok u => Ok u
  | Raise JWTError => Raise invalid_token
  | Raise _ => Raise authentication_failed
  end.

(** A deployment whose tokens all decode to the claims [c]. *)
Definition claims_env (c : dict) (net : nat -> json -> option json) : Env :=
  {| OIDC_AUTHORITY := demo_authority;
     OIDC_AUDIENCE := "bookverse:api";
     JWT_ALGORITHM := "RS256";
     JWKS_CACHE_DURATION := 3600;
     DEVELOPMENT_MODE := false;
     respond := net;
     jwt_get_unverified_header := demo_header;
     jwt_decode := fun _ _ _ _ _ => Ok c |}.



(** * Properties *)

Ltac run_monad :=
  unfold bind, try_except, gets, ret, raise, lift, set_oidc_config, set_jwks,
    set_jwks_last_updated, requests_get_json in *.


Lemma is_None_true (v : json) : is_None v = true <-> v = JNull.
Proof. destruct v; simpl; split; congruence. Qed.

Lemma is_None_false (v : json) : is_None v = false <-> v <> JNull.
Proof. destruct v; simpl; split; congruence. Qed.

Lemma str_in_In (x : string) (l : list string) :
  str_in x l = true <-> In x l.
Proof.
  unfold str_in. rewrite existsb_exists. split.
  - intros [y [Hin Heq]]. apply String.eqb_eq in Heq. now subst.
  - intros Hin. exists x. split; [exact Hin | apply String.eqb_refl].
Qed.

(** ** Key selection *)

Lemma scan_keys_first (kid : json) (keys : list json) :
  forallb is_jwk keys = true ->
  scan_keys kid keys
  = match first_with_kid kid keys with
    | Some (JObj key) => Ok key
    | _ => Raise (ValueError "No matching key found for kid: " (Some kid))
    end.
Proof.
  unfold first_with_kid.
  induction keys as [| k rest IH]; simpl; [reflexivity | ].
  intros Hjwk. apply andb_true_iff in Hjwk as [Hk Hrest].
  destruct k; try discriminate. simpl.
  destruct (py_eq (dict_get items "kid" JNull) kid); [reflexivity | ].
  now apply IH.
Qed.

Lemma scan_keys_sound (kid : json) (keys : list json) (key : dict) :
  scan_keys kid keys = Ok key ->
  In (JObj key) keys /\ py_eq (dict_get key "kid" JNull) kid = true.
Proof.
  induction keys as [| k rest IH]; simpl; [discriminate | ].
  destruct k; try discriminate.
  destruct (py_eq (dict_get items "kid" JNull) kid) eqn:Hm.
  - intros [= <-]. split; [now left | exact Hm].
  - intros H. destruct (IH H) as [Hin Hk]. split; [now right | exact Hk].
Qed.

Lemma py_iter_members (v : json) (keys : list json) (key : dict) :
  py_iter v = Ok keys -> In (JObj key) keys -> v = JList keys.
Proof.
  destruct v; simpl; try discriminate; intros [= <-].
  - intros Hin. apply in_map_iff in Hin as [c [Hc _]]. discriminate.
  - reflexivity.
  - intros Hin. apply in_map_iff in Hin as [kv [Hkv _]]. discriminate.
Qed.

(** C8 -- key selection is a function of the header and the key set alone.
    With a key set whose ["keys"] is a list of JWK objects:
    a header without a (truthy) [kid] fails with the missing-kid error;
    otherwise the result is the first key in stored order whose [kid] equals
    the header's, and the no-matching-key error when there is none.
    Whatever the key set, a key that is returned is one of the set's keys and
    its [kid] equals the header's: there is no fallback to another key. *)
Theorem get_public_key_first_match (token_header : dict) (jwks : json)
    (d : dict) (keys : list json) :
  jwks = JObj d ->
  dict_get d "keys" (JList []) = JList keys ->
  forallb is_jwk keys = true ->
  let kid := dict_get token_header "kid" JNull in
  (truthy kid = false -> get_public_key token_header jwks = Raise missing_kid)
  /\ (truthy kid = true ->
      get_public_key token_header jwks
      = match first_with_kid kid keys with
        | Some (JObj key) => Ok key
        | _ => Raise (ValueError "No matching key found for kid: " (Some kid))
        end)
  /\ (forall header' jwks' key,
        get_public_key header' jwks' = Ok key ->
        exists d' keys',
          jwks' = JObj d'
          /\ dict_get d' "keys" (JList []) = JList keys'
          /\ In (JObj key) keys'
          /\ py_eq (dict_get key "kid" JNull) (dict_get header' "kid" JNull)
             = true).
Proof.
  intros -> Hkeys Hjwk kid. repeat split.
  - intros Hf. unfold get_public_key. fold kid. now rewrite Hf.
  - intros Ht. unfold get_public_key. fold kid. rewrite Ht, Hkeys. simpl.
    now apply scan_keys_first.
  - intros header' jwks' key. unfold get_public_key.
    destruct (truthy (dict_get header' "kid" JNull)); simpl; [ | discriminate].
    destruct jwks' as [ | | | | | d']; try discriminate.
    destruct (py_iter (dict_get d' "keys" (JList []))) as [ks | e] eqn:Hit;
      [ | discriminate].
    intros Hscan. apply scan_keys_sound in Hscan as [Hin Hk].
    exists d', ks. repeat split; try assumption.
    eapply py_iter_members; eassumption.
Qed.

Lemma get_public_key_first_match_witness :
  get_public_key [("alg", JStr "RS256"); ("kid", JStr "k2")]
    (JObj [("keys", JList [demo_key "k1"; demo_key "k2"; demo_key "k2"])])
  = Ok [("kid", JStr "k2"); ("kty", JStr "RSA"); ("alg", JStr "RS256")].
Proof.
  exact (proj1 (proj2 (get_public_key_first_match
    [("alg", JStr "RS256"); ("kid", JStr "k2")]
    (JObj [("keys", JList [demo_key "k1"; demo_key "k2"; demo_key "k2"])])
    [("keys", JList [demo_key "k1"; demo_key "k2"; demo_key "k2"])]
    [demo_key "k1"; demo_key "k2"; demo_key "k2"]
    eq_refl eq_refl eq_refl)) eq_refl).
Defined.

(** C10 -- a header whose [kid] is the empty string is refused with the
    missing-kid error, exactly as a header with no [kid] at all, whatever
    the key set holds -- a key whose own [kid] is the empty string
    included. *)
Theorem get_public_key_empty_kid (token_header : dict) (jwks : json) :
  lookup "kid" token_header = Some (JStr "")
  \/ lookup "kid" token_header = None ->
  get_public_key token_header jwks = Raise missing_kid
  /\ forall kid,
       get_public_key token_header jwks
       <> Raise (ValueError "No matching key found for kid: " (Some kid)).
Proof.
  intros H.
  assert (Hk : get_public_key token_header jwks = Raise missing_kid).
  { unfold get_public_key, dict_get. destruct H as [-> | ->]; reflexivity. }
  split; [exact Hk | ]. intros kid. rewrite Hk. discriminate.
Qed.

Lemma get_public_key_empty_kid_witness :
  get_public_key [("alg", JStr "RS256"); ("kid", JStr "")]
    (JObj [("keys", JList [demo_key ""])])
  = Raise missing_kid.
Proof.
  exact (proj1 (get_public_key_empty_kid
    [("alg", JStr "RS256"); ("kid", JStr "")]
    (JObj [("keys", JList [demo_key ""])])
    (or_introl eq_refl))).
Defined.

(** ** Discovery *)

Section DiscoveryFacts.
Context (E : Env).

Lemma get_oidc_configuration_cached (st : State) :
  _oidc_config st <> JNull ->
  get_oidc_configuration E st = (Ok (_oidc_config st), st).
Proof.
  intros H. apply is_None_false in H.
  unfold get_oidc_configuration. run_monad. now rewrite H.
Qed.

(** A first call that finds the endpoint answering. *)
Lemma get_oidc_configuration_fetched (st : State) (doc : json) :
  _oidc_config st = JNull ->
  respond E (List.length (trace st)) (discovery_url E) = Some doc ->
  get_oidc_configuration E st
  = (Ok doc, {| _oidc_config := doc; _jwks := _jwks st;
                _jwks_last_updated := _jwks_last_updated st;
                trace := trace st ++ [HttpGet (discovery_url E)] |}).
Proof.
  intros Hc Hr. unfold get_oidc_configuration, fetch_oidc_configuration.
  run_monad. rewrite Hc. simpl. now rewrite Hr.
Qed.

(** A first call that finds the endpoint down. *)
Lemma get_oidc_configuration_down (st : State) :
  _oidc_config st = JNull ->
  respond E (List.length (trace st)) (discovery_url E) = None ->
  get_oidc_configuration E st
  = if DEVELOPMENT_MODE E
    then (Ok (mock_configuration E),
          {| _oidc_config := mock_configuration E; _jwks := _jwks st;
             _jwks_last_updated := _jwks_last_updated st;
             trace := trace st ++ [HttpGet (discovery_url E)] |})
    else (Raise (service_unavailable),
          {| _oidc_config := JNull; _jwks := _jwks st;
             _jwks_last_updated := _jwks_last_updated st;
             trace := trace st ++ [HttpGet (discovery_url E)] |}).
Proof.
  intros Hc Hr. unfold get_oidc_configuration, fetch_oidc_configuration.
  run_monad. rewrite Hc. simpl. rewrite Hr.
  destruct (DEVELOPMENT_MODE E); simpl; [reflexivity | now rewrite Hc].
Qed.

(** Discovery never touches the key-set cache; it appends at most the one
    discovery request; what it returns is what it leaves cached. *)
Lemma get_oidc_configuration_frame (st st' : State) (r : result json) :
  get_oidc_configuration E st = (r, st') ->
  _jwks st' = _jwks st
  /\ _jwks_last_updated st' = _jwks_last_updated st
  /\ (trace st' = trace st
      \/ (_oidc_config st = JNull
          /\ trace st' = (trace st ++ [HttpGet (discovery_url E)])%list))
  /\ (forall doc, r = Ok doc -> _oidc_config st' = doc)
  /\ (forall e, r = Raise e -> _oidc_config st' = _oidc_config st).
Proof.
  destruct (is_None (_oidc_config st)) eqn:Hn.
  - apply is_None_true in Hn.
    destruct (respond E (List.length (trace st)) (discovery_url E))
      as [doc | ] eqn:Hr.
    + rewrite (get_oidc_configuration_fetched st doc Hn Hr).
      intros [= <- <-]. simpl.
      repeat split; solve [ right; now split | now intros ? [= <-]
                          | discriminate ].
    + rewrite (get_oidc_configuration_down st Hn Hr).
      destruct (DEVELOPMENT_MODE E); intros [= <- <-]; simpl;
        repeat split;
        solve [ right; now split | now intros ? [= <-] | discriminate
              | now intros ].
  - apply is_None_false in Hn.
    rewrite (get_oidc_configuration_cached st Hn).
    intros [= <- <-].
    repeat split; solve [ now left | now intros ? [= <-] | discriminate ].
Qed.

Lemma call_cached (n : nat) (st : State) :
  _oidc_config st <> JNull ->
  call_get_oidc_configuration E n st
  = (repeat (Ok (_oidc_config st)) n, st).
Proof.
  intros H. induction n as [| n IH]; simpl; [reflexivity | ].
  rewrite (get_oidc_configuration_cached st H), IH. reflexivity.
Qed.

End DiscoveryFacts.

(** C3 -- discovery endpoint unreachable on a process that holds no metadata
    yet.  In development mode [get_oidc_configuration] returns, without
    raising, the synthetic document: its issuer is the configured authority,
    its endpoints are the standard paths under it, it is marked
    [demo_mode], and it is what stays cached.  With development mode off the
    call raises the 503 [HTTPException] and the metadata cache stays
    empty: nothing synthetic is substituted. *)
Theorem discovery_down_dev_or_503 (E : Env) (st : State) :
  _oidc_config st = JNull ->
  respond E (List.length (trace st)) (discovery_url E) = None ->
  (DEVELOPMENT_MODE E = true ->
   exists st',
     get_oidc_configuration E st = (Ok (mock_configuration E), st')
     /\ _oidc_config st' = mock_configuration E
     /\ py_get (mock_configuration E) "issuer" = Ok (JStr (OIDC_AUTHORITY E))
     /\ py_get (mock_configuration E) "authorization_endpoint"
        = Ok (JStr (OIDC_AUTHORITY E ++ "/auth"))
     /\ py_get (mock_configuration E) "token_endpoint"
        = Ok (JStr (OIDC_AUTHORITY E ++ "/token"))
     /\ py_get (mock_configuration E) "userinfo_endpoint"
        = Ok (JStr (OIDC_AUTHORITY E ++ "/userinfo"))
     /\ py_get (mock_configuration E) "jwks_uri"
        = Ok (JStr (OIDC_AUTHORITY E ++ "/.well-known/jwks.json"))
     /\ py_get (mock_configuration E) "demo_mode" = Ok (JBool true))
  /\ (DEVELOPMENT_MODE E = false ->
      exists st',
        get_oidc_configuration E st
        = (Raise (HTTPException 503 "Authentication service unavailable" None),
           st')
        /\ _oidc_config st' = JNull).
Proof.
  intros Hc Hr. pose proof (get_oidc_configuration_down E st Hc Hr) as H.
  split; intros Hdev; rewrite Hdev in H; eexists; (split; [exact H | ]).
  - repeat split.
  - reflexivity.
Qed.

Lemma discovery_down_dev_or_503_witness :
  (exists st',
     get_oidc_configuration (demo_env true net_down) initial_state
     = (Ok (mock_configuration (demo_env true net_down)), st')
     /\ _oidc_config st' = mock_configuration (demo_env true net_down))
  /\ (exists st',
        get_oidc_configuration (demo_env false net_down) initial_state
        = (Raise (HTTPException 503 "Authentication service unavailable" None),
           st')
        /\ _oidc_config st' = JNull).
Proof.
  split.
  - destruct (proj1 (discovery_down_dev_or_503 (demo_env true net_down)
                       initial_state eq_refl eq_refl) eq_refl)
      as [st' [H1 [H2 _]]].
    exists st'. split; assumption.
  - exact (proj2 (discovery_down_dev_or_503 (demo_env false net_down)
                    initial_state eq_refl eq_refl) eq_refl).
Defined.

Lemma requests_made_app (st st' : State) (ev : list Event) :
  trace st' = (trace st ++ ev)%list ->
  requests_made st st' = List.length ev.
Proof.
  unfold requests_made. intros ->. rewrite length_app. lia.
Qed.

(** A first call on an empty metadata cache always makes the one discovery
    request, whatever comes of it. *)
Lemma get_oidc_configuration_first (E : Env) (st st' : State)
    (r : result json) :
  _oidc_config st = JNull ->
  get_oidc_configuration E st = (r, st') ->
  trace st' = (trace st ++ [HttpGet (discovery_url E)])%list.
Proof.
  intros Hc.
  destruct (respond E (List.length (trace st)) (discovery_url E))
    as [doc | ] eqn:Hr.
  - rewrite (get_oidc_configuration_fetched E st doc Hc Hr).
    now intros [= <- <-].
  - rewrite (get_oidc_configuration_down E st Hc Hr).
    destruct (DEVELOPMENT_MODE E); now intros [= <- <-].
Qed.

(** C7, as the code has it -- memoization starts with the first call that
    obtains a document.  On a process without cached metadata, if the first
    call returns a document (fetched, or synthesized in development mode;
    not [None]), then [S n] calls in a row make exactly one discovery
    request and every one of them returns that same document.  A call that
    raises caches nothing and has made its own request. *)
Theorem get_oidc_configuration_memoized (E : Env) (st : State) :
  _oidc_config st = JNull ->
  (forall doc st1 n,
     get_oidc_configuration E st = (Ok doc, st1) ->
     doc <> JNull ->
     call_get_oidc_configuration E (S n) st = (repeat (Ok doc) (S n), st1)
     /\ requests_made st st1 = 1%nat
     /\ trace st1 = (trace st ++ [HttpGet (discovery_url E)])%list)
  /\ (forall e st1,
        get_oidc_configuration E st = (Raise e, st1) ->
        _oidc_config st1 = JNull /\ requests_made st st1 = 1%nat).
Proof.
  intros Hc. split.
  - intros doc st1 n Hcall Hdoc.
    pose proof (get_oidc_configuration_first E st st1 _ Hc Hcall) as Htr.
    destruct (get_oidc_configuration_frame E st st1 _ Hcall)
      as [_ [_ [_ [Hok _]]]].
    specialize (Hok doc eq_refl).
    repeat split.
    + cbn [call_get_oidc_configuration]. rewrite Hcall.
      rewrite call_cached by (rewrite Hok; exact Hdoc).
      now rewrite Hok.
    + now apply (requests_made_app st st1 [HttpGet (discovery_url E)]).
    + exact Htr.
  - intros e st1 Hcall.
    pose proof (get_oidc_configuration_first E st st1 _ Hc Hcall) as Htr.
    destruct (get_oidc_configuration_frame E st st1 _ Hcall)
      as [_ [_ [_ [_ Hraise]]]].
    split.
    + rewrite (Hraise e eq_refl). exact Hc.
    + now apply (requests_made_app st st1 [HttpGet (discovery_url E)]).
Qed.

Lemma get_oidc_configuration_memoized_witness :
  call_get_oidc_configuration (demo_env true net_down) 3 initial_state
  = (repeat (Ok (mock_configuration (demo_env true net_down))) 3,
     snd (get_oidc_configuration (demo_env true net_down) initial_state))
  /\ requests_made initial_state
       (snd (get_oidc_configuration (demo_env true net_down) initial_state))
     = 1%nat.
Proof.
  destruct (proj1 (get_oidc_configuration_memoized (demo_env true net_down)
                     initial_state eq_refl)
              (mock_configuration (demo_env true net_down))
              (snd (get_oidc_configuration (demo_env true net_down)
                      initial_state))
              2%nat eq_refl ltac:(discriminate)) as [H1 [H2 _]].
  split; assumption.
Defined.

(** C7 as stated fails: with development mode off and the discovery
    endpoint down, two calls make two discovery requests, and neither
    returns. *)
Lemma discovery_retried_when_down :
  call_get_oidc_configuration (demo_env false net_down) 2 initial_state
  = ([Raise (HTTPException 503 "Authentication service unavailable" None);
      Raise (HTTPException 503 "Authentication service unavailable" None)],
     {| _oidc_config := JNull; _jwks := JNull; _jwks_last_updated := None;
        trace := [HttpGet (discovery_url (demo_env false net_down));
                  HttpGet (discovery_url (demo_env false net_down))] |})
  /\ requests_made initial_state
       (snd (call_get_oidc_configuration (demo_env false net_down) 2
               initial_state))
     <> 1%nat.
Proof.
  split; [reflexivity | ]. vm_compute. discriminate.
Qed.

(** ** The key-set cache *)

Section JwksFacts.
Context (E : Env).

Lemma get_jwks_fresh (now : Q) (st : State) :
  jwks_refresh_due E now st = false ->
  get_jwks E now st = (Ok (_jwks st), st).
Proof.
  intros H. unfold get_jwks. run_monad. now rewrite H.
Qed.

Lemma get_jwks_due (now : Q) (st : State) :
  jwks_refresh_due E now st = true ->
  get_jwks E now st
  = match fetch_jwks E now st with
    | (Ok _, st1) => (Ok (_jwks st1), st1)
    | (Raise _, st1) =>
        if is_None (_jwks st1) then (Raise service_unavailable, st1)
        else (Ok (_jwks st1), st1)
    end.
Proof.
  intros H. unfold get_jwks. run_monad. rewrite H.
  destruct (fetch_jwks E now st) as [[[] | e] st1]; [reflexivity | ].
  destruct (is_None (_jwks st1)); reflexivity.
Qed.

(** What the [try] block of [get_jwks] does, outcome by outcome: when it
    raises, the cached key set and its timestamp are as before; when it
    completes, the last request of the trace was answered with the
    document now cached, stamped with the time of the call. *)
Lemma fetch_jwks_outcome (now : Q) (st st1 : State) (r : result unit) :
  fetch_jwks E now st = (r, st1) ->
  match r with
  | Raise _ =>
      _jwks st1 = _jwks st
      /\ _jwks_last_updated st1 = _jwks_last_updated st
  | Ok _ =>
      exists tr url,
        trace st1 = (tr ++ [HttpGet url])%list
        /\ respond E (List.length tr) url = Some (_jwks st1)
        /\ _jwks_last_updated st1 = Some now
  end.
Proof.
  unfold fetch_jwks. unfold bind at 1.
  destruct (get_oidc_configuration E st) as [[cfg | e] s1] eqn:Hcfg.
  - destruct (get_oidc_configuration_frame E st s1 _ Hcfg)
      as [Hj [Hl _]].
    run_monad.
    destruct (py_get cfg "jwks_uri") as [uri | e]; simpl.
    + destruct (truthy uri); simpl.
      * destruct (respond E (List.length (trace s1)) uri) as [doc | ] eqn:Hr.
        -- intros [= <- <-]. simpl. exists (trace s1), uri. now rewrite Hr.
        -- intros [= <- <-]. simpl. now split.
      * intros [= <- <-]. now split.
    + intros [= <- <-]. now split.
  - destruct (get_oidc_configuration_frame E st s1 _ Hcfg)
      as [Hj [Hl _]].
    intros [= <- <-]. now split.
Qed.


End JwksFacts.

Lemma key_set_nonempty_not_None (v : json) :
  key_set_nonempty v = true -> v <> JNull.
Proof. destruct v; simpl; congruence. Qed.

(** C4 -- a refresh attempt that fails serves the stale set or gives up.
    When [get_jwks] has to refresh and its [try] block raises: if a key set
    is cached (a non-empty one in particular) the call returns that prior
    set and leaves it cached; if none is cached the call raises the 503
    [HTTPException]. *)
Theorem get_jwks_stale_or_503 (E : Env) (now : Q) (st st1 : State)
    (e : PyExc) :
  jwks_refresh_due E now st = true ->
  fetch_jwks E now st = (Raise e, st1) ->
  (_jwks st <> JNull ->
   get_jwks E now st = (Ok (_jwks st), st1) /\ _jwks st1 = _jwks st)
  /\ (_jwks st = JNull ->
      get_jwks E now st
      = (Raise (HTTPException 503 "Authentication service unavailable" None),
         st1)).
Proof.
  intros Hdue Hfetch.
  pose proof (fetch_jwks_outcome E now st st1 _ Hfetch) as [Hj _].
  rewrite (get_jwks_due E now st Hdue), Hfetch, Hj.
  split; intros H.
  - apply is_None_false in H. rewrite H. now split.
  - apply is_None_true in H. now rewrite H.
Qed.

Lemma get_jwks_stale_or_503_witness :
  get_jwks (demo_env false net_down) 5000 warm_state
  = (Ok demo_jwks,
     snd (fetch_jwks (demo_env false net_down) 5000 warm_state))
  /\ get_jwks (demo_env false net_down) 5000 initial_state
     = (Raise (HTTPException 503 "Authentication service unavailable" None),
        snd (fetch_jwks (demo_env false net_down) 5000 initial_state)).
Proof.
  split.
  - exact (proj1 (proj1 (get_jwks_stale_or_503 (demo_env false net_down) 5000
                           warm_state _ RequestException eq_refl eq_refl)
                    ltac:(discriminate))).
  - exact (proj2 (get_jwks_stale_or_503 (demo_env false net_down) 5000
                    initial_state _ service_unavailable eq_refl eq_refl)
             eq_refl).
Defined.

(** C5, as the code has it -- only a successful JWKS request replaces the
    cached key set.  After any [get_jwks] call on a non-empty cached key
    set, either the same set is still cached, or the last request of the
    trace was answered with the document now cached and returned, whatever
    that document holds.  In particular a call whose [try] block raises
    leaves the key set and its timestamp as they were. *)
Theorem jwks_cache_replaced_only_by_fetched (E : Env) (now : Q)
    (st st' : State) (r : result json) :
  get_jwks E now st = (r, st') ->
  key_set_nonempty (_jwks st) = true ->
  ((_jwks st' = _jwks st /\ key_set_nonempty (_jwks st') = true)
   \/ (exists tr url,
         trace st' = (tr ++ [HttpGet url])%list
         /\ respond E (List.length tr) url = Some (_jwks st')
         /\ r = Ok (_jwks st')))
  /\ (forall e st1,
        fetch_jwks E now st = (Raise e, st1) ->
        _jwks st' = _jwks st
        /\ _jwks_last_updated st' = _jwks_last_updated st).
Proof.
  intros Hcall Hne.
  destruct (jwks_refresh_due E now st) eqn:Hdue.
  - rewrite (get_jwks_due E now st Hdue) in Hcall.
    destruct (fetch_jwks E now st) as [[[] | e0] s1] eqn:Hfetch.
    + injection Hcall as <- <-.
      destruct (fetch_jwks_outcome E now st s1 _ Hfetch)
        as [tr [url [Htr [Hr _]]]].
      split; [ | discriminate].
      right. exists tr, url. now repeat split.
    + destruct (fetch_jwks_outcome E now st s1 _ Hfetch) as [Hj Hl].
      assert (st' = s1) as ->
        by (destruct (is_None (_jwks s1)); now injection Hcall).
      split; [left; split; [exact Hj | now rewrite Hj] | ].
      intros e1 st1 [= _ <-]. now split.
  - rewrite (get_jwks_fresh E now st Hdue) in Hcall.
    injection Hcall as <- <-.
    split; [now left | now intros].
Qed.

Lemma jwks_cache_replaced_only_by_fetched_witness :
  _jwks (snd (get_jwks (demo_env false net_down) 5000 warm_state))
  = _jwks warm_state
  /\ _jwks_last_updated
       (snd (get_jwks (demo_env false net_down) 5000 warm_state))
     = _jwks_last_updated warm_state.
Proof.
  exact (proj2 (jwks_cache_replaced_only_by_fetched
                  (demo_env false net_down) 5000 warm_state _ _
                  eq_refl eq_refl)
           RequestException _ eq_refl).
Defined.

(** C5 as stated fails: a refresh that succeeds with an empty key set
    replaces the non-empty one that was cached. *)
Lemma refresh_success_stores_empty_set :
  key_set_nonempty (_jwks warm_state) = true
  /\ get_jwks (demo_env false (net_up empty_jwks)) 5000 warm_state
     = (Ok empty_jwks,
        {| _oidc_config := demo_metadata;
           _jwks := empty_jwks;
           _jwks_last_updated := Some 5000;
           trace := (trace warm_state ++ [HttpGet demo_jwks_uri])%list |})
  /\ key_set_nonempty
       (_jwks (snd (get_jwks (demo_env false (net_up empty_jwks)) 5000
                      warm_state)))
     = false.
Proof.
  repeat split.
Qed.


(** The cache stays consistent under every operation of the module. *)
Lemma cache_consistent_initial : cache_consistent initial_state.
Proof. intros _. reflexivity. Qed.

Lemma cache_consistent_clear (E : Env) (st : State) :
  cache_consistent (snd (clear_cache st)).
Proof. intros _. reflexivity. Qed.

Lemma cache_consistent_get_oidc_configuration (E : Env) (st st' : State)
    (r : result json) :
  cache_consistent st ->
  get_oidc_configuration E st = (r, st') ->
  cache_consistent st'.
Proof.
  intros Hc Hcall.
  destruct (get_oidc_configuration_frame E st st' r Hcall) as [Hj [Hl _]].
  unfold cache_consistent in *. now rewrite Hj, Hl.
Qed.

Lemma cache_consistent_get_jwks (E : Env) (now : Q) (st st' : State)
    (r : result json) :
  cache_consistent st ->
  get_jwks E now st = (r, st') ->
  cache_consistent st'.
Proof.
  intros Hc Hcall.
  destruct (jwks_refresh_due E now st) eqn:Hdue.
  - rewrite (get_jwks_due E now st Hdue) in Hcall.
    destruct (fetch_jwks E now st) as [[[] | e0] s1] eqn:Hfetch.
    + injection Hcall as <- <-.
      destruct (fetch_jwks_outcome E now st s1 _ Hfetch)
        as [tr [url [_ [_ Hl]]]].
      intros Hnone. congruence.
    + destruct (fetch_jwks_outcome E now st s1 _ Hfetch) as [Hj Hl].
      assert (st' = s1) as ->
        by (destruct (is_None (_jwks s1)); now injection Hcall).
      unfold cache_consistent in *. rewrite Hj, Hl. exact Hc.
  - rewrite (get_jwks_fresh E now st Hdue) in Hcall.
    now injection Hcall as <- <-.
Qed.






(** ** Token validation *)

Lemma str_split_nonempty (s x : string) : In x (str_split s) -> s <> "".
Proof. intros Hin ->. exact Hin. Qed.

Lemma get_jwks_returns_cache (E : Env) (now : Q) (st st1 : State)
    (jwks : json) :
  get_jwks E now st = (Ok jwks, st1) -> _jwks st1 = jwks.
Proof.
  destruct (jwks_refresh_due E now st) eqn:Hdue.
  - rewrite (get_jwks_due E now st Hdue).
    destruct (fetch_jwks E now st) as [[[] | e0] s1].
    + now intros [= <- <-].
    + destruct (is_None (_jwks s1)); [discriminate | now intros [= <- <-]].
  - rewrite (get_jwks_fresh E now st Hdue). now intros [= <- <-].
Qed.

Lemma kid_absent_no_match (token_header : dict) (jwks : json) :
  truthy (dict_get token_header "kid" JNull) = true ->
  kid_absent (dict_get token_header "kid" JNull) jwks ->
  get_public_key token_header jwks
  = Raise (ValueError "No matching key found for kid: "
             (Some (dict_get token_header "kid" JNull))).
Proof.
  intros Ht [d [keys [-> [Hkeys [Hjwk Hnone]]]]].
  unfold get_public_key. rewrite Ht, Hkeys. simpl.
  rewrite (scan_keys_first _ _ Hjwk). now rewrite Hnone.
Qed.

Section ValidationFacts.
Context (E : Env).

(** The [try] block once the header is parsed, the key set obtained, the
    key selected and the token decoded. *)
Lemma validate_claims_decoded (token : string) (now : Q) (st st1 : State)
    (header : dict) (jwks : json) (key c : dict) :
  jwt_get_unverified_header E token = Ok header ->
  get_jwks E now st = (Ok jwks, st1) ->
  get_public_key header jwks = Ok key ->
  jwt_decode E token key [JWT_ALGORITHM E] (OIDC_AUDIENCE E)
    (OIDC_AUTHORITY E) = Ok c ->
  validate_claims E token now st
  = (if negb (truthy (dict_get c "sub" JNull)) then Raise missing_sub
     else match scope_list c with
          | Ok sc =>
              if negb (str_in "bookverse:api" sc) then Raise missing_scope
              else AuthUser_init c
          | Raise e => Raise e
          end,
     st1).
Proof.
  intros Hh Hj Hk Hd. unfold validate_claims.
  unfold bind at 1. unfold lift at 1. rewrite Hh.
  unfold bind at 1. rewrite Hj.
  unfold bind at 1. unfold lift at 1. rewrite Hk.
  unfold bind at 1. unfold lift at 1. rewrite Hd.
  destruct (negb (truthy (dict_get c "sub" JNull))); [reflexivity | ].
  run_monad.
  destruct (scope_list c) as [sc | e]; [ | reflexivity].
  destruct (negb (str_in "bookverse:api" sc)); reflexivity.
Qed.

(** The [try] block when key selection raises. *)
Lemma validate_claims_no_key (token : string) (now : Q) (st st1 : State)
    (header : dict) (jwks : json) (e : PyExc) :
  jwt_get_unverified_header E token = Ok header ->
  get_jwks E now st = (Ok jwks, st1) ->
  get_public_key header jwks = Raise e ->
  validate_claims E token now st = (Raise e, st1).
Proof.
  intros Hh Hj Hk. unfold validate_claims.
  unfold bind at 1. unfold lift at 1. rewrite Hh.
  unfold bind at 1. rewrite Hj.
  unfold bind at 1. unfold lift at 1. now rewrite Hk.
Qed.

End ValidationFacts.



(** C2, as the code has it -- an unknown [kid] fails at once, without a
    forced refresh.  If the header carries a [kid] that names no key of the
    set [get_jwks] provides, [validate_jwt_token] raises the 401
    [HTTPException] "Authentication failed" in the state its single
    [get_jwks] call left: the cache is not cleared (it still holds the key
    set that was consulted), nothing is fetched again, and when the cache
    was fresh no request is made at all. *)
Theorem validate_jwt_token_unknown_kid (E : Env) (token : string) (now : Q)
    (st st1 : State) (header : dict) (jwks : json) :
  jwt_get_unverified_header E token = Ok header ->
  truthy (dict_get header "kid" JNull) = true ->
  get_jwks E now st = (Ok jwks, st1) ->
  kid_absent (dict_get header "kid" JNull) jwks ->
  validate_jwt_token E token now st
  = (Raise (HTTPException 401 "Authentication failed"
              (Some [("WWW-Authenticate", "Bearer")])),
     st1)
  /\ _jwks st1 = jwks
  /\ (jwks_refresh_due E now st = false ->
      st1 = st /\ requests_made st st1 = 0%nat).
Proof.
  intros Hh Ht Hj Habs.
  pose proof (kid_absent_no_match header jwks Ht Habs) as Hk.
  split; [ | split].
  - unfold validate_jwt_token, try_except.
    now rewrite (validate_claims_no_key E token now st st1 header jwks _
               Hh Hj Hk).
  - eapply get_jwks_returns_cache; eassumption.
  - intros Hfresh. rewrite (get_jwks_fresh E now st Hfresh) in Hj.
    injection Hj as _ <-. split; [reflexivity | ].
    unfold requests_made. apply Nat.sub_diag.
Qed.

(** The provider after a rotation: it now publishes [k1] and [k2]. *)
Lemma validate_jwt_token_unknown_kid_witness :
  validate_jwt_token
    (demo_env false (net_up (JObj [("keys", JList [demo_key "k1";
                                                   demo_key "k2"])])))
    "rotated" 1200 warm_state
  = (Raise (HTTPException 401 "Authentication failed"
              (Some [("WWW-Authenticate", "Bearer")])),
     warm_state).
Proof.
  exact (proj1 (validate_jwt_token_unknown_kid
    (demo_env false (net_up (JObj [("keys", JList [demo_key "k1";
                                                   demo_key "k2"])])))
    "rotated" 1200 warm_state warm_state
    [("alg", JStr "RS256"); ("kid", JStr "k2")] demo_jwks
    eq_refl eq_refl eq_refl
    (ex_intro _ [("keys", JList [demo_key "k1"])]
       (ex_intro _ [demo_key "k1"]
          (conj eq_refl (conj eq_refl (conj eq_refl eq_refl))))))).
Defined.

(** C2 as stated fails: the token is signed with [k2], the cached set holds
    only [k1], the provider already publishes [k2]; validation fails
    without one request and leaves the cache as it was. *)
Lemma unknown_kid_forces_no_refresh :
  validate_jwt_token
    (demo_env false (net_up (JObj [("keys", JList [demo_key "k1";
                                                   demo_key "k2"])])))
    "rotated" 1200 warm_state
  = (Raise (HTTPException 401 "Authentication failed"
              (Some [("WWW-Authenticate", "Bearer")])),
     warm_state)
  /\ requests_made warm_state
       (snd (validate_jwt_token
               (demo_env false
                  (net_up (JObj [("keys", JList [demo_key "k1";
                                                 demo_key "k2"])])))
               "rotated" 1200 warm_state))
     <> 1%nat.
Proof.
  split; [reflexivity | ]. vm_compute. discriminate.
Qed.

(** C9, as the code has it -- a token that passes signature, issuer,
    audience, expiry and [sub] checks but whose [scope] claim lacks
    [bookverse:api] makes [validate_jwt_token] raise the 401
    [HTTPException] "Authentication failed".  That is the very exception a
    token without [sub] gets, and a header whose key selection fails: the
    caller cannot tell these causes apart. *)
Theorem validate_jwt_token_missing_scope (E : Env) (token : string) (now : Q)
    (st st1 : State) (header : dict) (jwks : json) (key c : dict)
    (sc : list string) :
  jwt_get_unverified_header E token = Ok header ->
  get_jwks E now st = (Ok jwks, st1) ->
  get_public_key header jwks = Ok key ->
  jwt_decode E token key [JWT_ALGORITHM E] (OIDC_AUDIENCE E)
    (OIDC_AUTHORITY E) = Ok c ->
  scope_list c = Ok sc ->
  ~ In "bookverse:api" sc ->
  (truthy (dict_get c "sub" JNull) = true ->
   validate_jwt_token E token now st
   = (Raise (HTTPException 401 "Authentication failed"
               (Some [("WWW-Authenticate", "Bearer")])),
      st1))
  /\ (forall token' header' key' c',
        jwt_get_unverified_header E token' = Ok header' ->
        get_public_key header' jwks = Ok key' ->
        jwt_decode E token' key' [JWT_ALGORITHM E] (OIDC_AUDIENCE E)
          (OIDC_AUTHORITY E) = Ok c' ->
        truthy (dict_get c' "sub" JNull) = false ->
        validate_jwt_token E token' now st
        = (Raise (HTTPException 401 "Authentication failed"
                    (Some [("WWW-Authenticate", "Bearer")])),
           st1))
  /\ (forall token' header' e,
        jwt_get_unverified_header E token' = Ok header' ->
        get_public_key header' jwks = Raise e ->
        e <> JWTError ->
        validate_jwt_token E token' now st
        = (Raise (HTTPException 401 "Authentication failed"
                    (Some [("WWW-Authenticate", "Bearer")])),
           st1)).
Proof.
  intros Hh Hj Hk Hd Hsl Hnin.
  assert (Hhas : str_in "bookverse:api" sc = false).
  { destruct (str_in "bookverse:api" sc) eqn:Hs; [ | reflexivity].
    apply str_in_In in Hs. contradiction. }
  repeat split.
  - intros Hsub. unfold validate_jwt_token, try_except.
    rewrite (validate_claims_decoded E token now st st1 header jwks key c
               Hh Hj Hk Hd).
    now rewrite Hsub, Hsl, Hhas.
  - intros token' header' key' c' Hh' Hk' Hd' Hsub.
    unfold validate_jwt_token, try_except.
    rewrite (validate_claims_decoded E token' now st st1 header' jwks key' c'
               Hh' Hj Hk' Hd').
    now rewrite Hsub.
  - intros token' header' e Hh' Hk' He. unfold validate_jwt_token, try_except.
    rewrite (validate_claims_no_key E token' now st st1 header' jwks e
               Hh' Hj Hk').
    destruct e; try reflexivity. contradiction.
Qed.

Lemma validate_jwt_token_missing_scope_witness :
  validate_jwt_token (demo_env false (net_up demo_jwks)) "noscope" 1200
    warm_state
  = (Raise (HTTPException 401 "Authentication failed"
              (Some [("WWW-Authenticate", "Bearer")])),
     warm_state).
Proof.
  exact (proj1 (validate_jwt_token_missing_scope
    (demo_env false (net_up demo_jwks)) "noscope" 1200 warm_state warm_state
    [("alg", JStr "RS256"); ("kid", JStr "k1")] demo_jwks
    [("kid", JStr "k1"); ("kty", JStr "RSA"); ("alg", JStr "RS256")]
    (demo_claims "noscope") ["openid"; "profile"]
    eq_refl eq_refl eq_refl eq_refl eq_refl
    ltac:(simpl; intros [H | [H | []]]; discriminate H)) eq_refl).
Defined.

(** C9 as stated fails: the token without the required scope, the token
    without [sub] and the token with an unknown [kid] all end in one and
    the same exception. *)
Lemma missing_scope_not_distinguished :
  fst (validate_jwt_token (demo_env false (net_up demo_jwks)) "noscope" 1200
         warm_state)
  = Raise (HTTPException 401 "Authentication failed"
             (Some [("WWW-Authenticate", "Bearer")]))
  /\ fst (validate_jwt_token (demo_env false (net_up demo_jwks)) "noscope"
            1200 warm_state)
     = fst (validate_jwt_token (demo_env false (net_up demo_jwks)) "nosub"
              1200 warm_state)
  /\ fst (validate_jwt_token (demo_env false (net_up demo_jwks)) "noscope"
            1200 warm_state)
     = fst (validate_jwt_token (demo_env false (net_up demo_jwks)) "rotated"
              1200 warm_state).
Proof.
  repeat split.
Qed.

(** * Further properties of the two modules *)

(** ** Key selection on ill-formed key sets *)

Lemma scan_keys_stops_at_non_object (kid : json) (before after : list json)
    (bad : json) :
  forallb is_jwk before = true ->
  first_with_kid kid before = None ->
  is_jwk bad = false ->
  scan_keys kid (before ++ bad :: after) = Raise AttributeError.
Proof.
  unfold first_with_kid.
  induction before as [| k rest IH]; simpl.
  - intros _ _ Hbad. destruct bad; simpl in Hbad; congruence.
  - intros Hjwk Hnone Hbad. apply andb_true_iff in Hjwk as [Hk Hrest].
    destruct k; try discriminate. simpl in Hnone.
    destruct (py_eq (dict_get items "kid" JNull) kid); [discriminate | ].
    now apply IH.
Qed.

(** X1 -- an entry of the key set that is not a JSON object stops key
    selection: when it comes before any key with the wanted [kid],
    [get_public_key] raises [AttributeError], also when a matching key
    follows it. *)
Theorem get_public_key_non_object_entry (token_header d : dict)
    (before after : list json) (bad : json) :
  truthy (dict_get token_header "kid" JNull) = true ->
  dict_get d "keys" (JList []) = JList (before ++ bad :: after) ->
  forallb is_jwk before = true ->
  first_with_kid (dict_get token_header "kid" JNull) before = None ->
  is_jwk bad = false ->
  get_public_key token_header (JObj d) = Raise AttributeError.
Proof.
  intros Ht Hkeys Hjwk Hnone Hbad.
  unfold get_public_key. rewrite Ht, Hkeys. simpl.
  now apply scan_keys_stops_at_non_object.
Qed.

Lemma get_public_key_non_object_entry_witness :
  get_public_key [("alg", JStr "RS256"); ("kid", JStr "k2")]
    (JObj [("keys", JList [demo_key "k1"; JNull; demo_key "k2"])])
  = Raise AttributeError.
Proof.
  exact (get_public_key_non_object_entry
           [("alg", JStr "RS256"); ("kid", JStr "k2")]
           [("keys", JList [demo_key "k1"; JNull; demo_key "k2"])]
           [demo_key "k1"] [demo_key "k2"] JNull
           eq_refl eq_refl eq_refl eq_refl eq_refl).
Defined.

Lemma scan_keys_errors (kid : json) (keys : list json) (e : PyExc) :
  scan_keys kid keys = Raise e ->
  e = ValueError "No matching key found for kid: " (Some kid)
  \/ e = AttributeError.
Proof.
  induction keys as [| k rest IH]; simpl.
  - intros [= <-]. now left.
  - destruct k; try (intros [= <-]; now right).
    destruct (py_eq (dict_get items "kid" JNull) kid); [discriminate | ].
    exact IH.
Qed.

(** The exceptions key selection can end in. *)
Lemma get_public_key_errors (token_header : dict) (jwks : json) (e : PyExc) :
  get_public_key token_header jwks = Raise e ->
  e = missing_kid
  \/ e = ValueError "No matching key found for kid: "
           (Some (dict_get token_header "kid" JNull))
  \/ e = AttributeError
  \/ e = TypeError.
Proof.
  unfold get_public_key.
  destruct (truthy (dict_get token_header "kid" JNull)); simpl;
    [ | intros [= <-]; now left].
  destruct jwks as [ | | | | | d]; try (intros [= <-]; tauto).
  destruct (dict_get d "keys" (JList [])) as [ | | | s | l | d'] eqn:Hk;
    simpl; try (intros [= <-]; tauto).
  - intros H. apply scan_keys_errors in H. tauto.
  - intros H. apply scan_keys_errors in H. tauto.
  - intros H. apply scan_keys_errors in H. tauto.
Qed.

(** X2 -- a key-set document that does not have the expected shape never
    yields a key.  For a header with a [kid]: a document that is not an
    object (a list, [None], ...) raises [AttributeError]; an object without
    ["keys"], or with an empty list there, raises the no-matching-key
    [ValueError]; ["keys"] holding [None], a boolean or a number raises
    [TypeError]. *)
Theorem get_public_key_shapeless_set (token_header : dict) (jwks : json) :
  truthy (dict_get token_header "kid" JNull) = true ->
  (is_jwk jwks = false ->
   get_public_key token_header jwks = Raise AttributeError)
  /\ (forall d,
        jwks = JObj d ->
        lookup "keys" d = None \/ lookup "keys" d = Some (JList []) ->
        get_public_key token_header jwks
        = Raise (ValueError "No matching key found for kid: "
                   (Some (dict_get token_header "kid" JNull))))
  /\ (forall d v,
        jwks = JObj d ->
        lookup "keys" d = Some v ->
        (v = JNull \/ (exists b, v = JBool b) \/ (exists q, v = JNum q)) ->
        get_public_key token_header jwks = Raise TypeError).
Proof.
  intros Ht. unfold get_public_key. rewrite Ht. simpl. repeat split.
  - destruct jwks; simpl; congruence.
  - intros d -> [H | H]; unfold dict_get; now rewrite H.
  - intros d v -> Hv [-> | [[b ->] | [q ->]]]; unfold dict_get;
      now rewrite Hv.
Qed.

Lemma get_public_key_shapeless_set_witness :
  get_public_key [("kid", JStr "k1")] JNull = Raise AttributeError
  /\ get_public_key [("kid", JStr "k1")] (JObj [("issuer", JStr "x")])
     = Raise (ValueError "No matching key found for kid: "
                (Some (JStr "k1"))).
Proof.
  destruct (get_public_key_shapeless_set [("kid", JStr "k1")] JNull eq_refl)
    as [H1 _].
  destruct (get_public_key_shapeless_set [("kid", JStr "k1")]
              (JObj [("issuer", JStr "x")]) eq_refl) as [_ [H2 _]].
  split.
  - exact (H1 eq_refl).
  - exact (H2 [("issuer", JStr "x")] eq_refl (or_introl eq_refl)).
Defined.

(** ** Roles *)

Lemma py_eq_str (v : json) (s : string) :
  py_eq v (JStr s) = true <-> v = JStr s.
Proof.
  destruct v; simpl; try (split; [discriminate | discriminate]).
  rewrite String.eqb_eq. split; [now intros -> | now intros [= ->]].
Qed.

Lemma prefix_app (n h : string) :
  String.prefix n h = true <-> exists b, h = n ++ b.
Proof.
  revert h. induction n as [| c n IH]; intros h.
  - split; [intros _; now exists h | intros _; now destruct h].
  - destruct h as [| c' h]; simpl.
    + split; [discriminate | intros [b Hb]; discriminate].
    + destruct (ascii_dec c c') as [-> | Hne].
      * rewrite IH. split; intros [b Hb]; exists b; congruence.
      * split; [discriminate | intros [b Hb]; injection Hb as Hc _;
                                 symmetry in Hc; contradiction].
Qed.

Lemma str_contains_app (n h : string) :
  str_contains n h = true <-> exists a b, h = a ++ n ++ b.
Proof.
  induction h as [| c h IH].
  - cbn [str_contains]. rewrite orb_false_r, prefix_app. split.
    + intros [b Hb]. now exists "", b.
    + intros [a [b Hab]]. destruct a; [now exists b | discriminate].
  - cbn [str_contains]. rewrite orb_true_iff, prefix_app, IH. split.
    + intros [[b Hb] | [a [b Hab]]].
      * now exists "", b.
      * exists (String c a), b. simpl. now rewrite Hab.
    + intros [a [b Hab]]. destruct a as [| c' a]; simpl in Hab.
      * left. now exists b.
      * right. injection Hab as _ Hh. now exists a, b.
Qed.

Lemma AuthUser_init_roles (c : dict) (u : AuthUser) :
  AuthUser_init c = Ok u -> roles u = dict_get c "roles" (JList []).
Proof.
  unfold AuthUser_init. destruct (scope_list c); [ | discriminate].
  now intros [= <-].
Qed.

(** X3 -- with a [roles] claim that is a list, [has_role] is exact
    membership: it answers true for [role] if and only if the string [role]
    itself is an item of the list (items of other types never match); with
    no [roles] claim it answers false for every role. *)
Theorem has_role_list_membership (c : dict) (u : AuthUser) (role : string) :
  AuthUser_init c = Ok u ->
  (forall items,
     lookup "roles" c = Some (JList items) ->
     (exists b, has_role u role = Ok b)
     /\ (has_role u role = Ok true <-> In (JStr role) items))
  /\ (lookup "roles" c = None -> has_role u role = Ok false).
Proof.
  intros Hu. apply AuthUser_init_roles in Hu.
  unfold has_role, dict_get in *. split.
  - intros items Hr. rewrite Hr in Hu. rewrite Hu. split; [now eexists | ].
    split.
    + intros [= H]. apply existsb_exists in H as [x [Hin Hx]].
      apply py_eq_str in Hx. now subst.
    + intros Hin. f_equal. apply existsb_exists. exists (JStr role).
      split; [exact Hin | now apply py_eq_str].
  - intros Hr. rewrite Hr in Hu. now rewrite Hu.
Qed.

Lemma has_role_list_membership_witness :
  has_role {| claims := [("roles", JList [JNum 1; JStr "admin"])];
              user_id := JNull; email := JNull; name := JNull;
              roles := JList [JNum 1; JStr "admin"]; scopes := [] |} "admin"
  = Ok true.
Proof.
  apply (proj1 (has_role_list_membership
                  [("roles", JList [JNum 1; JStr "admin"])] _ "admin"
                  eq_refl)
           [JNum 1; JStr "admin"] eq_refl).
  right. left. reflexivity.
Defined.

(** X4 -- with a [roles] claim that is a single string, [has_role] is a
    substring test: it answers true for [role] if and only if [role] occurs
    somewhere inside that string, so a user whose claim is
    ["administrator"] has the role ["admin"].  With a [roles] claim that is
    [None], a boolean or a number, [has_role] raises [TypeError]. *)
Theorem has_role_string_is_substring (c : dict) (u : AuthUser)
    (role : string) :
  AuthUser_init c = Ok u ->
  (forall s,
     lookup "roles" c = Some (JStr s) ->
     (has_role u role = Ok true <-> exists a b, s = a ++ role ++ b)
     /\ (has_role u role = Ok false <-> ~ exists a b, s = a ++ role ++ b))
  /\ (forall v,
        lookup "roles" c = Some v ->
        v = JNull \/ (exists b, v = JBool b) \/ (exists q, v = JNum q) ->
        has_role u role = Raise TypeError).
Proof.
  intros Hu. apply AuthUser_init_roles in Hu.
  unfold has_role, dict_get in *. split.
  - intros s Hr. rewrite Hr in Hu. rewrite Hu.
    rewrite <- str_contains_app.
    destruct (str_contains role s); split; split; congruence.
  - intros v Hr Hv. rewrite Hr in Hu. rewrite Hu.
    destruct Hv as [-> | [[b ->] | [q ->]]]; reflexivity.
Qed.

Lemma has_role_string_is_substring_witness :
  has_role {| claims := [("roles", JStr "administrator")];
              user_id := JNull; email := JNull; name := JNull;
              roles := JStr "administrator"; scopes := [] |} "admin"
  = Ok true.
Proof.
  apply (proj1 (has_role_string_is_substring
                  [("roles", JStr "administrator")] _ "admin" eq_refl)
           "administrator" eq_refl).
  exists "", "istrator". reflexivity.
Defined.

(** ** Scopes *)

Lemma str_app_nil_r (s : string) : s ++ "" = s.
Proof. induction s as [| c s IH]; simpl; [reflexivity | now rewrite IH]. Qed.

Lemma str_app_assoc (a b c : string) : (a ++ b) ++ c = a ++ (b ++ c).
Proof. induction a as [| x a IH]; simpl; [reflexivity | now rewrite IH]. Qed.

Lemma no_space_app (a b : string) :
  no_space (a ++ b) = no_space a && no_space b.
Proof.
  unfold no_space. induction a as [| c a IH]; simpl; [reflexivity | ].
  now rewrite IH, andb_assoc.
Qed.

(** Reading a run of non-space characters only extends the current word. *)
Lemma split_from_word (w : string) :
  no_space w = true ->
  forall rest acc, split_from (w ++ rest) acc = split_from rest (acc ++ w).
Proof.
  induction w as [| c w IH]; intros Hw rest acc.
  - simpl. now rewrite str_app_nil_r.
  - unfold no_space in Hw. simpl in Hw.
    apply andb_true_iff in Hw as [Hc Hw]. apply negb_true_iff in Hc.
    simpl. rewrite Hc, (IH Hw), str_app_assoc. reflexivity.
Qed.

Lemma split_from_words (s : string) :
  forall acc,
    no_space acc = true ->
    Forall (fun w => is_word w = true) (split_from s acc).
Proof.
  induction s as [| c s IH]; intros acc Hacc; simpl.
  - destruct (String.eqb acc "") eqn:He; constructor; [ | constructor].
    unfold is_word. now rewrite He, Hacc.
  - destruct (is_space c) eqn:Hc.
    + destruct (String.eqb acc "") eqn:He.
      * now apply IH.
      * constructor; [unfold is_word; now rewrite He, Hacc | now apply IH].
    + apply IH. rewrite no_space_app, Hacc. unfold no_space. simpl.
      now rewrite Hc.
Qed.

Lemma str_split_join (words : list string) :
  forallb is_word words = true ->
  str_split (join_words words) = words.
Proof.
  unfold str_split.
  induction words as [| w rest IH]; [reflexivity | ].
  intros Hall. cbn [forallb] in Hall.
  apply andb_true_iff in Hall as [Hw Hrest].
  unfold is_word in Hw. apply andb_true_iff in Hw as [Hne Hns].
  apply negb_true_iff in Hne.
  destruct rest as [| w2 rest].
  - cbn [join_words]. rewrite <- (str_app_nil_r w) at 1.
    rewrite (split_from_word w Hns). simpl. now rewrite Hne.
  - change (join_words (w :: w2 :: rest))
      with (w ++ " " ++ join_words (w2 :: rest)).
    rewrite (split_from_word w Hns).
    change (" " ++ join_words (w2 :: rest))
      with (String " " (join_words (w2 :: rest))).
    cbn [split_from]. change (is_space " ") with true. cbv iota.
    change ("" ++ w) with w. rewrite Hne. now rewrite (IH Hrest).
Qed.

(** X5 -- scopes round trip: for claims whose [scope] is scope names joined
    by single spaces (each name non-empty and free of white space),
    [AuthUser.__init__] succeeds, [scopes] is exactly that list of names in
    order, and [has_scope] is true for exactly those names. *)
Theorem scopes_of_joined_claim (c : dict) (words : list string) :
  lookup "scope" c = Some (JStr (join_words words)) ->
  forallb is_word words = true ->
  exists u,
    AuthUser_init c = Ok u
    /\ scopes u = words
    /\ forall x, has_scope u x = true <-> In x words.
Proof.
  intros Hscope Hwords.
  pose proof (str_split_join words Hwords) as Hsplit.
  assert (Hsl : scope_list c = Ok words).
  { unfold scope_list, dict_get. rewrite Hscope. simpl.
    destruct (String.eqb (join_words words) "") eqn:He; simpl.
    - apply String.eqb_eq in He. rewrite He in Hsplit.
      now rewrite <- Hsplit.
    - now rewrite Hsplit. }
  unfold AuthUser_init. rewrite Hsl. eexists. split; [reflexivity | ].
  split; [reflexivity | ]. intros x. unfold has_scope. simpl.
  apply str_in_In.
Qed.

Lemma scopes_of_joined_claim_witness :
  exists u,
    create_mock_user = Ok u
    /\ scopes u = ["openid"; "profile"; "email"; "bookverse:api"].
Proof.
  destruct (scopes_of_joined_claim mock_user_claims
              ["openid"; "profile"; "email"; "bookverse:api"]
              eq_refl eq_refl) as [u [H1 [H2 _]]].
  exists u. split; assumption.
Defined.

(** X6 -- whatever the [scope] claim holds, the scopes of a constructed
    [AuthUser] are proper names: none is empty and none contains a white
    space character; so [has_scope] is false for the empty string and for
    any string with white space in it. *)
Theorem scopes_are_words (c : dict) (u : AuthUser) :
  AuthUser_init c = Ok u ->
  Forall (fun w => is_word w = true) (scopes u)
  /\ forall x, is_word x = false -> has_scope u x = false.
Proof.
  intros Hu.
  assert (Hall : Forall (fun w => is_word w = true) (scopes u)).
  { unfold AuthUser_init in Hu.
    destruct (scope_list c) as [sc | e] eqn:Hsl; [ | discriminate].
    injection Hu as <-. simpl. unfold scope_list in Hsl.
    destruct (truthy (dict_get c "scope" JNull)).
    - destruct (dict_get c "scope" (JStr "")); try discriminate.
      injection Hsl as <-. now apply split_from_words.
    - injection Hsl as <-. constructor. }
  split; [exact Hall | ].
  intros x Hx. destruct (has_scope u x) eqn:Hh; [ | reflexivity].
  apply str_in_In in Hh. rewrite Forall_forall in Hall.
  specialize (Hall x Hh). congruence.
Qed.

Lemma scopes_are_words_witness :
  has_scope
    {| claims := [("scope", JStr "  openid   bookverse:api ")];
       user_id := JNull; email := JNull; name := JNull; roles := JList [];
       scopes := ["openid"; "bookverse:api"] |} ""
  = false.
Proof.
  exact (proj2 (scopes_are_words
                  [("scope", JStr "  openid   bookverse:api ")] _ eq_refl)
           "" eq_refl).
Defined.

(** ** How the calls move the state *)

Section Steps.
Context (E : Env).

(** The [try] block of [get_jwks], step by step: discovery first, then at
    most one more request; the metadata cache is as discovery left it. *)
Lemma fetch_jwks_steps (now : Q) (st st1 : State) (r : result unit) :
  fetch_jwks E now st = (r, st1) ->
  exists r0 s1,
    get_oidc_configuration E st = (r0, s1)
    /\ _oidc_config st1 = _oidc_config s1
    /\ (trace st1 = trace s1
        \/ exists url, trace st1 = (trace s1 ++ [HttpGet url])%list).
Proof.
  unfold fetch_jwks. unfold bind at 1.
  destruct (get_oidc_configuration E st) as [[cfg | e] s1] eqn:Hcfg.
  - run_monad.
    destruct (py_get cfg "jwks_uri") as [uri | e]; simpl.
    + destruct (truthy uri); simpl.
      * destruct (respond E (List.length (trace s1)) uri);
          intros [= <- <-]; exists (Ok cfg), s1; simpl;
          (split; [reflexivity | split; [reflexivity | right; now exists uri]]).
      * intros [= <- <-]. exists (Ok cfg), s1. tauto.
    + intros [= <- <-]. exists (Ok cfg), s1. tauto.
  - intros [= <- <-]. exists (Raise e), s1. tauto.
Qed.

Lemma get_jwks_cases (now : Q) (st st' : State) (r : result json) :
  get_jwks E now st = (r, st') ->
  (jwks_refresh_due E now st = false /\ st' = st /\ r = Ok (_jwks st))
  \/ (jwks_refresh_due E now st = true
      /\ exists r0,
           fetch_jwks E now st = (r0, st')
           /\ (r = Ok (_jwks st')
               \/ (r = Raise service_unavailable
                   /\ _jwks st' = JNull
                   /\ exists e, r0 = Raise e))).
Proof.
  destruct (jwks_refresh_due E now st) eqn:Hdue.
  - rewrite (get_jwks_due E now st Hdue).
    destruct (fetch_jwks E now st) as [[[] | e] s1] eqn:Hf.
    + intros [= <- <-]. right. split; [reflexivity | ].
      exists (Ok tt). split; [reflexivity | now left].
    + destruct (is_None (_jwks s1)) eqn:Hn; intros [= <- <-]; right;
        (split; [reflexivity | ]); exists (Raise e);
        (split; [reflexivity | ]).
      * right. apply is_None_true in Hn. repeat split; [exact Hn | ].
        now exists e.
      * now left.
  - rewrite (get_jwks_fresh E now st Hdue). intros [= <- <-]. now left.
Qed.

(** Every request a call makes is appended to the trace. *)
Lemma get_oidc_configuration_appends (st st' : State) (r : result json) :
  get_oidc_configuration E st = (r, st') ->
  exists ev,
    trace st' = (trace st ++ ev)%list /\ (List.length ev <= 1)%nat.
Proof.
  intros H.
  destruct (get_oidc_configuration_frame E st st' r H)
    as [_ [_ [[Ht | [_ Ht]] _]]].
  - exists []. rewrite app_nil_r. split; [exact Ht | simpl; lia].
  - exists [HttpGet (discovery_url E)]. split; [exact Ht | simpl; lia].
Qed.

Lemma get_jwks_appends (now : Q) (st st' : State) (r : result json) :
  get_jwks E now st = (r, st') ->
  exists ev,
    trace st' = (trace st ++ ev)%list /\ (List.length ev <= 2)%nat.
Proof.
  intros H. destruct (get_jwks_cases now st st' r H)
    as [[_ [-> _]] | [_ [r0 [Hf _]]]].
  - exists []. rewrite app_nil_r. split; [reflexivity | simpl; lia].
  - destruct (fetch_jwks_steps now st st' r0 Hf)
      as [rc [s1 [Hc [_ Ht]]]].
    destruct (get_oidc_configuration_appends st s1 rc Hc) as [ev [He Hl]].
    destruct Ht as [Ht | [url Ht]]; rewrite Ht, He.
    + exists ev. split; [reflexivity | lia].
    + exists (ev ++ [HttpGet url])%list. rewrite app_assoc.
      split; [reflexivity | rewrite length_app; simpl; lia].
Qed.

(** [validate_jwt_token] leaves the state as it found it when the header
    does not parse, and as its one [get_jwks] call left it otherwise. *)
Lemma validate_jwt_token_state (token : string) (now : Q) (st st' : State)
    (r : result AuthUser) :
  validate_jwt_token E token now st = (r, st') ->
  (exists e, jwt_get_unverified_header E token = Raise e /\ st' = st)
  \/ (exists header rj,
        jwt_get_unverified_header E token = Ok header
        /\ get_jwks E now st = (rj, st')).
Proof.
  unfold validate_jwt_token, try_except, validate_claims.
  unfold bind at 1. unfold lift at 1.
  destruct (jwt_get_unverified_header E token) as [header | e] eqn:Hh.
  - unfold bind at 1.
    destruct (get_jwks E now st) as [[jwks | ej] s1] eqn:Hj.
    + intros H. right. exists header, (Ok jwks). split; [reflexivity | ].
      f_equal. revert H. run_monad.
      destruct (get_public_key header jwks) as [key | ek].
      * destruct (jwt_decode E token key [JWT_ALGORITHM E] (OIDC_AUDIENCE E)
                    (OIDC_AUTHORITY E)) as [c | ed].
        -- destruct (negb (truthy (dict_get c "sub" JNull))).
           ++ now intros [= _ <-].
           ++ destruct (scope_list c) as [sc | es].
              ** destruct (negb (str_in "bookverse:api" sc)).
                 --- now intros [= _ <-].
                 --- destruct (AuthUser_init c) as [u | eu].
                     +++ now intros [= _ <-].
                     +++ destruct eu; now intros [= _ <-].
              ** destruct es; now intros [= _ <-].
        -- destruct ed; now intros [= _ <-].
      * destruct ek; now intros [= _ <-].
    + intros H. right. exists header, (Raise ej). split; [reflexivity | ].
      f_equal. destruct ej; now injection H.
  - intros H. left. exists e. split; [reflexivity | ].
    destruct e; now injection H.
Qed.

End Steps.

(** ** Bounded network cost *)

(** X7 -- no call retries: [get_oidc_configuration] makes at most one
    request, [get_jwks] at most two (discovery, then the key set), and
    [validate_jwt_token] at most two as well; each call only appends to the
    record of requests, and a token whose header does not parse costs no
    request at all. *)
Theorem requests_per_call_bounded (E : Env) (token : string) (now : Q)
    (st : State) :
  (exists ev,
     trace (snd (get_oidc_configuration E st)) = (trace st ++ ev)%list
     /\ (List.length ev <= 1)%nat)
  /\ (exists ev,
        trace (snd (get_jwks E now st)) = (trace st ++ ev)%list
        /\ (List.length ev <= 2)%nat)
  /\ (exists ev,
        trace (snd (validate_jwt_token E token now st))
        = (trace st ++ ev)%list
        /\ (List.length ev <= 2)%nat
        /\ (forall e,
              jwt_get_unverified_header E token = Raise e -> ev = [])).
Proof.
  split; [ | split].
  - destruct (get_oidc_configuration E st) as [r st'] eqn:H.
    exact (get_oidc_configuration_appends E st st' r H).
  - destruct (get_jwks E now st) as [r st'] eqn:H.
    exact (get_jwks_appends E now st st' r H).
  - destruct (validate_jwt_token E token now st) as [r st'] eqn:H.
    destruct (validate_jwt_token_state E token now st st' r H)
      as [[e [He ->]] | [header [rj [Hh Hj]]]]; simpl.
    + exists []. rewrite app_nil_r. repeat split; simpl; lia.
    + destruct (get_jwks_appends E now st st' rj Hj) as [ev [Ht Hl]].
      exists ev. repeat split; try assumption.
      intros e He. congruence.
Qed.

(** ** What the cache functions can raise *)

(** X8 -- [get_jwks] raises nothing but the 503 [HTTPException], and only
    when no key set was cached before the call and none is after it; once a
    key set is cached, [get_jwks] returns for every time and every behaviour
    of the network. *)
Theorem get_jwks_raises_only_503 (E : Env) (now : Q) (st : State) :
  (forall e st',
     get_jwks E now st = (Raise e, st') ->
     e = HTTPException 503 "Authentication service unavailable" None
     /\ _jwks st = JNull
     /\ _jwks st' = JNull)
  /\ (_jwks st <> JNull ->
      exists doc st', get_jwks E now st = (Ok doc, st')).
Proof.
  assert (Hraise : forall e st',
             get_jwks E now st = (Raise e, st') ->
             e = service_unavailable /\ _jwks st = JNull /\ _jwks st' = JNull).
  { intros e st' H.
    destruct (get_jwks_cases E now st st' _ H)
      as [[_ [_ Hr]] | [_ [r0 [Hf [Hr | [Hr [Hn [e0 ->]]]]]]]];
      try discriminate.
    injection Hr as ->.
    destruct (fetch_jwks_outcome E now st st' _ Hf) as [Hj _].
    repeat split; congruence. }
  split; [exact Hraise | ].
  intros Hc. destruct (get_jwks E now st) as [[doc | e] st'] eqn:H.
  - now exists doc, st'.
  - destruct (Hraise e st' eq_refl) as [_ [Hn _]]. contradiction.
Qed.

Lemma get_jwks_raises_only_503_witness :
  exists doc st',
    get_jwks (demo_env false net_down) 99999 warm_state = (Ok doc, st').
Proof.
  exact (proj2 (get_jwks_raises_only_503 (demo_env false net_down) 99999
                  warm_state) ltac:(discriminate)).
Defined.

(** X9 -- [get_oidc_configuration] raises nothing but the 503
    [HTTPException], and only with development mode off, no metadata cached
    and a discovery request that failed; the metadata cache is then still
    empty.  In development mode it returns for every state and every
    behaviour of the network. *)
Theorem get_oidc_configuration_raises_only_503 (E : Env) (st : State) :
  (forall e st',
     get_oidc_configuration E st = (Raise e, st') ->
     e = HTTPException 503 "Authentication service unavailable" None
     /\ DEVELOPMENT_MODE E = false
     /\ _oidc_config st = JNull
     /\ respond E (List.length (trace st)) (discovery_url E) = None
     /\ _oidc_config st' = JNull)
  /\ (DEVELOPMENT_MODE E = true ->
      exists doc st', get_oidc_configuration E st = (Ok doc, st')).
Proof.
  assert (Hraise : forall e st',
             get_oidc_configuration E st = (Raise e, st') ->
             e = service_unavailable
             /\ DEVELOPMENT_MODE E = false
             /\ _oidc_config st = JNull
             /\ respond E (List.length (trace st)) (discovery_url E) = None
             /\ _oidc_config st' = JNull).
  { intros e st'.
    destruct (is_None (_oidc_config st)) eqn:Hn.
    - apply is_None_true in Hn.
      destruct (respond E (List.length (trace st)) (discovery_url E))
        as [doc | ] eqn:Hr.
      + rewrite (get_oidc_configuration_fetched E st doc Hn Hr). discriminate.
      + rewrite (get_oidc_configuration_down E st Hn Hr).
        destruct (DEVELOPMENT_MODE E); [discriminate | ].
        intros [= <- <-]. now repeat split.
    - apply is_None_false in Hn.
      rewrite (get_oidc_configuration_cached E st Hn). discriminate. }
  split; [exact Hraise | ].
  intros Hdev. destruct (get_oidc_configuration E st) as [[doc | e] st'] eqn:H.
  - now exists doc, st'.
  - destruct (Hraise e st' eq_refl) as [_ [Hd _]]. congruence.
Qed.

Lemma get_oidc_configuration_raises_only_503_witness :
  exists doc st',
    get_oidc_configuration (demo_env true net_down) initial_state
    = (Ok doc, st').
Proof.
  exact (proj2 (get_oidc_configuration_raises_only_503
                  (demo_env true net_down) initial_state) eq_refl).
Defined.

(** ** What validation returns and raises *)

Section Verdict.
Context (E : Env).

Lemma validate_jwt_token_header_error (token : string) (now : Q) (st : State)
    (e : PyExc) :
  jwt_get_unverified_header E token = Raise e ->
  validate_jwt_token E token now st = (as_http_401 (Raise e), st).
Proof.
  intros Hh. unfold validate_jwt_token, try_except, validate_claims.
  unfold bind at 1. unfold lift at 1. rewrite Hh.
  destruct e; reflexivity.
Qed.

Lemma validate_jwt_token_run (token : string) (now : Q) (st s1 : State)
    (header : dict) (rj : result json) :
  jwt_get_unverified_header E token = Ok header ->
  get_jwks E now st = (rj, s1) ->
  validate_jwt_token E token now st
  = (as_http_401 match rj with
                 | Ok jwks => check_token E token header jwks
                 | Raise e => Raise e
                 end, s1).
Proof.
  intros Hh Hj. unfold validate_jwt_token, try_except.
  destruct rj as [jwks | ej].
  - unfold check_token.
    destruct (get_public_key header jwks) as [key | ek] eqn:Hk.
    + destruct (jwt_decode E token key [JWT_ALGORITHM E] (OIDC_AUDIENCE E)
                  (OIDC_AUTHORITY E)) as [c | ed] eqn:Hd.
      * rewrite (validate_claims_decoded E token now st s1 header jwks key c
                   Hh Hj Hk Hd).
        fold (check_claims c).
        destruct (check_claims c) as [u | e]; [reflexivity | ].
        destruct e; reflexivity.
      * unfold validate_claims.
        unfold bind at 1. unfold lift at 1. rewrite Hh.
        unfold bind at 1. rewrite Hj.
        unfold bind at 1. unfold lift at 1. rewrite Hk.
        unfold bind at 1. unfold lift at 1. rewrite Hd.
        destruct ed; reflexivity.
    + rewrite (validate_claims_no_key E token now st s1 header jwks ek
                 Hh Hj Hk).
      destruct ek; reflexivity.
  - unfold validate_claims.
    unfold bind at 1. unfold lift at 1. rewrite Hh.
    unfold bind at 1. rewrite Hj.
    destruct ej; reflexivity.
Qed.

Lemma check_claims_errors (c : dict) (e : PyExc) :
  check_claims c = Raise e ->
  e = missing_sub \/ e = missing_scope \/ e = AttributeError.
Proof.
  unfold check_claims.
  destruct (negb (truthy (dict_get c "sub" JNull)));
    [intros [= <-]; tauto | ].
  assert (Hsl : forall e0, scope_list c = Raise e0 -> e0 = AttributeError).
  { unfold scope_list. destruct (truthy (dict_get c "scope" JNull));
      [ | discriminate].
    destruct (dict_get c "scope" (JStr ""));
      intros e0 H; congruence. }
  destruct (scope_list c) as [sc | es] eqn:Hs.
  - destruct (negb (str_in "bookverse:api" sc)); [intros [= <-]; tauto | ].
    unfold AuthUser_init. rewrite Hs. discriminate.
  - intros [= <-]. right. right. now apply Hsl.
Qed.

Lemma check_claims_sound (c : dict) (u : AuthUser) :
  check_claims c = Ok u ->
  claims u = c
  /\ user_id u = dict_get c "sub" JNull
  /\ truthy (user_id u) = true
  /\ has_scope u "bookverse:api" = true.
Proof.
  unfold check_claims.
  destruct (truthy (dict_get c "sub" JNull)) eqn:Hsub; simpl;
    [ | discriminate].
  destruct (scope_list c) as [sc | es] eqn:Hs; [ | discriminate].
  destruct (str_in "bookverse:api" sc) eqn:Hin; simpl; [ | discriminate].
  unfold AuthUser_init. rewrite Hs. intros [= <-]. simpl.
  now repeat split.
Qed.

End Verdict.

Lemma get_jwks_raise_503 (E : Env) (now : Q) (st st' : State) (e : PyExc) :
  get_jwks E now st = (Raise e, st') -> e = service_unavailable.
Proof.
  intros H.
  destruct (get_jwks_cases E now st st' _ H)
    as [[_ [_ Hr]] | [_ [r0 [_ [Hr | [Hr _]]]]]]; congruence.
Qed.

Lemma get_public_key_sound (header : dict) (jwks : json) (key : dict) :
  get_public_key header jwks = Ok key ->
  truthy (dict_get header "kid" JNull) = true
  /\ py_eq (dict_get key "kid" JNull) (dict_get header "kid" JNull) = true
  /\ exists d keys,
       jwks = JObj d
       /\ dict_get d "keys" (JList []) = JList keys
       /\ In (JObj key) keys.
Proof.
  unfold get_public_key.
  destruct (truthy (dict_get header "kid" JNull)); simpl; [ | discriminate].
  destruct jwks as [ | | | | | d]; try discriminate.
  destruct (py_iter (dict_get d "keys" (JList []))) as [ks | e] eqn:Hit;
    [ | discriminate].
  intros Hscan. apply scan_keys_sound in Hscan as [Hin Hk].
  split; [reflexivity | split; [exact Hk | ]].
  exists d, ks. repeat split; try assumption.
  eapply py_iter_members; eassumption.
Qed.

(** What [validate_jwt_token] ends in, against the one situation in which
    python-jose raised [JWTError] on what the call actually used. *)
Lemma validate_jwt_token_verdict (E : Env) (token : string) (now : Q)
    (st : State) :
  let jose_refused :=
    jwt_get_unverified_header E token = Raise JWTError
    \/ exists header jwks s1 key,
         jwt_get_unverified_header E token = Ok header
         /\ get_jwks E now st = (Ok jwks, s1)
         /\ get_public_key header jwks = Ok key
         /\ jwt_decode E token key [JWT_ALGORITHM E] (OIDC_AUDIENCE E)
              (OIDC_AUTHORITY E) = Raise JWTError in
  (fst (validate_jwt_token E token now st) = Raise invalid_token
   /\ jose_refused)
  \/ (fst (validate_jwt_token E token now st) = Raise authentication_failed
      /\ ~ jose_refused)
  \/ ((exists u, fst (validate_jwt_token E token now st) = Ok u)
      /\ ~ jose_refused).
Proof.
  intros jose_refused. unfold jose_refused.
  destruct (jwt_get_unverified_header E token) as [header | eh] eqn:Hh.
  - destruct (get_jwks E now st) as [[jwks | ej] s1] eqn:Hj.
    + rewrite (validate_jwt_token_run E token now st s1 header _ Hh Hj).
      unfold check_token.
      destruct (get_public_key header jwks) as [key | ek] eqn:Hk.
      * destruct (jwt_decode E token key [JWT_ALGORITHM E]
                    (OIDC_AUDIENCE E) (OIDC_AUTHORITY E)) as [c | ed] eqn:Hd.
        -- destruct (check_claims c) as [u | ec] eqn:Hc.
           ++ right. right. split; [now exists u | ].
              intros [Hh' | [h' [j' [s' [k' [Hh' [Hj' [Hk' Hd']]]]]]]];
                congruence.
           ++ right. left. split.
              ** destruct (check_claims_errors c ec Hc) as [-> | [-> | ->]];
                   reflexivity.
              ** intros [Hh' | [h' [j' [s' [k' [Hh' [Hj' [Hk' Hd']]]]]]]];
                   congruence.
        -- destruct ed;
             try (right; left; split;
                  [ reflexivity
                  | intros [Hh' | [h' [j' [s' [k' [Hh' [Hj' [Hk' Hd']]]]]]]];
                    congruence ]).
           left. split; [reflexivity | ].
           right. exists header, jwks, s1, key. now repeat split.
      * right. left. split.
        -- destruct (get_public_key_errors header jwks ek Hk)
             as [-> | [-> | [-> | ->]]]; reflexivity.
        -- intros [Hh' | [h' [j' [s' [k' [Hh' [Hj' [Hk' Hd']]]]]]]];
             congruence.
    + rewrite (validate_jwt_token_run E token now st s1 header _ Hh Hj).
      rewrite (get_jwks_raise_503 E now st s1 ej Hj).
      right. left. split; [reflexivity | ].
      intros [Hh' | [h' [j' [s' [k' [Hh' [Hj' [Hk' Hd']]]]]]]]; congruence.
  - rewrite (validate_jwt_token_header_error E token now st eh Hh).
    destruct eh;
      try (right; left; split;
           [ reflexivity
           | intros [Hh' | [h' [j' [s' [k' [Hh' [Hj' [Hk' Hd']]]]]]]];
             congruence ]).
    left. split; [reflexivity | now left].
Qed.

(** X10 -- [validate_jwt_token] lets nothing escape but two 401
    [HTTPException]s.  "Invalid authentication token" is raised if and only
    if python-jose raised [JWTError], either on the header or on decoding
    the token with the very key that was selected from the key set
    [get_jwks] returned for the header's [kid]; every other failure, the 503
    of [get_jwks] included, comes out as "Authentication failed". *)
Theorem validate_jwt_token_raises_only_401 (E : Env) (token : string)
    (now : Q) (st : State) :
  (forall e st',
     validate_jwt_token E token now st = (Raise e, st') ->
     e = HTTPException 401 "Invalid authentication token"
           (Some [("WWW-Authenticate", "Bearer")])
     \/ e = HTTPException 401 "Authentication failed"
              (Some [("WWW-Authenticate", "Bearer")]))
  /\ (fst (validate_jwt_token E token now st)
      = Raise (HTTPException 401 "Invalid authentication token"
                 (Some [("WWW-Authenticate", "Bearer")]))
      <-> (jwt_get_unverified_header E token = Raise JWTError
           \/ exists header jwks s1 key,
                jwt_get_unverified_header E token = Ok header
                /\ get_jwks E now st = (Ok jwks, s1)
                /\ get_public_key header jwks = Ok key
                /\ jwt_decode E token key [JWT_ALGORITHM E] (OIDC_AUDIENCE E)
                     (OIDC_AUTHORITY E) = Raise JWTError))
  /\ (forall header e st',
        jwt_get_unverified_header E token = Ok header ->
        get_jwks E now st = (Raise e, st') ->
        validate_jwt_token E token now st
        = (Raise (HTTPException 401 "Authentication failed"
                    (Some [("WWW-Authenticate", "Bearer")])),
           st')).
Proof.
  pose proof (validate_jwt_token_verdict E token now st) as Hv.
  cbv zeta in Hv. split; [ | split].
  - intros e st' H. rewrite H in Hv. simpl in Hv.
    destruct Hv as [[Hr _] | [[Hr _] | [[u Hr] _]]].
    + left. now injection Hr.
    + right. now injection Hr.
    + discriminate.
  - split.
    + intros H. rewrite H in Hv.
      destruct Hv as [[_ Hp] | [[Hr _] | [[u Hr] _]]];
        [exact Hp | discriminate | discriminate].
    + intros Hp.
      destruct Hv as [[Hr _] | [[_ Hn] | [_ Hn]]];
        [exact Hr | contradiction | contradiction].
  - intros header e st' Hh Hj.
    rewrite (validate_jwt_token_run E token now st st' header _ Hh Hj).
    now rewrite (get_jwks_raise_503 E now st st' e Hj).
Qed.

Lemma validate_jwt_token_raises_only_401_witness :
  validate_jwt_token (demo_env false net_down) "valid" 1000 initial_state
  = (Raise (HTTPException 401 "Authentication failed"
              (Some [("WWW-Authenticate", "Bearer")])),
     snd (get_jwks (demo_env false net_down) 1000 initial_state)).
Proof.
  exact (proj2 (proj2 (validate_jwt_token_raises_only_401
                         (demo_env false net_down) "valid" 1000
                         initial_state))
           [("alg", JStr "RS256"); ("kid", JStr "k1")]
           service_unavailable _ eq_refl eq_refl).
Defined.

(** X11 -- an identity is only ever built from a token that passed
    everything.  When [validate_jwt_token] returns a user, the header
    parsed, [get_jwks] gave a key set, the key used is one of that set's
    keys with the header's [kid], [jwt.decode] accepted the token with that
    key and returned the user's claims, the user's id is the claims' truthy
    [sub], and the user has the scope [bookverse:api]. *)
Theorem validate_jwt_token_sound (E : Env) (token : string) (now : Q)
    (st st' : State) (u : AuthUser) :
  validate_jwt_token E token now st = (Ok u, st') ->
  exists header jwks key,
    jwt_get_unverified_header E token = Ok header
    /\ get_jwks E now st = (Ok jwks, st')
    /\ get_public_key header jwks = Ok key
    /\ py_eq (dict_get key "kid" JNull) (dict_get header "kid" JNull) = true
    /\ (exists d keys,
          jwks = JObj d
          /\ dict_get d "keys" (JList []) = JList keys
          /\ In (JObj key) keys)
    /\ jwt_decode E token key [JWT_ALGORITHM E] (OIDC_AUDIENCE E)
         (OIDC_AUTHORITY E) = Ok (claims u)
    /\ user_id u = dict_get (claims u) "sub" JNull
    /\ truthy (user_id u) = true
    /\ has_scope u "bookverse:api" = true.
Proof.
  destruct (jwt_get_unverified_header E token) as [header | eh] eqn:Hh.
  - destruct (get_jwks E now st) as [[jwks | ej] s1] eqn:Hj.
    + rewrite (validate_jwt_token_run E token now st s1 header _ Hh Hj).
      unfold check_token.
      destruct (get_public_key header jwks) as [key | ek] eqn:Hk.
      * destruct (jwt_decode E token key [JWT_ALGORITHM E]
                    (OIDC_AUDIENCE E) (OIDC_AUTHORITY E)) as [c | ed] eqn:Hd.
        -- destruct (check_claims c) as [u0 | ec] eqn:Hc.
           ++ intros [= -> <-].
              destruct (check_claims_sound c u Hc) as [Hcl [Hid [Ht Hs]]].
              destruct (get_public_key_sound header jwks key Hk)
                as [_ [Hkid Hmem]].
              exists header, jwks, key. subst c.
              repeat split; assumption.
           ++ destruct ec; discriminate.
        -- destruct ed; discriminate.
      * destruct ek; discriminate.
    + rewrite (validate_jwt_token_run E token now st s1 header _ Hh Hj).
      destruct ej; discriminate.
  - rewrite (validate_jwt_token_header_error E token now st eh Hh).
    destruct eh; discriminate.
Qed.

Lemma validate_jwt_token_sound_witness :
  exists header jwks key,
    jwt_get_unverified_header (demo_env false (net_up demo_jwks)) "valid"
    = Ok header
    /\ get_public_key header jwks = Ok key
    /\ py_eq (dict_get key "kid" JNull) (JStr "k1") = true.
Proof.
  destruct (validate_jwt_token_sound (demo_env false (net_up demo_jwks))
              "valid" 1200 warm_state _ _ eq_refl)
    as [header [jwks [key [Hh [_ [Hk [Hkid _]]]]]]].
  exists header, jwks, key. repeat split; try assumption.
  vm_compute in Hh. injection Hh as <-. exact Hkid.
Defined.

(** X12 -- a [scope] claim that is not a string is refused.  When the
    token passes signature, issuer, audience, expiry and [sub] checks but
    its [scope] claim is a truthy value other than a string (a JSON list of
    scope names, say, even one that lists [bookverse:api]),
    [validate_jwt_token] raises the 401 "Authentication failed", and
    [AuthUser.__init__] on such claims raises [AttributeError]. *)
Theorem validate_jwt_token_scope_not_a_string (E : Env) (token : string)
    (now : Q) (st st1 : State) (header : dict) (jwks : json) (key c : dict)
    (v : json) :
  jwt_get_unverified_header E token = Ok header ->
  get_jwks E now st = (Ok jwks, st1) ->
  get_public_key header jwks = Ok key ->
  jwt_decode E token key [JWT_ALGORITHM E] (OIDC_AUDIENCE E)
    (OIDC_AUTHORITY E) = Ok c ->
  truthy (dict_get c "sub" JNull) = true ->
  lookup "scope" c = Some v ->
  truthy v = true ->
  (forall s, v <> JStr s) ->
  validate_jwt_token E token now st
  = (Raise (HTTPException 401 "Authentication failed"
              (Some [("WWW-Authenticate", "Bearer")])),
     st1)
  /\ AuthUser_init c = Raise AttributeError.
Proof.
  intros Hh Hj Hk Hd Hsub Hscope Hv Hns.
  assert (Hsl : scope_list c = Raise AttributeError).
  { unfold scope_list, dict_get. rewrite Hscope, Hv.
    destruct v; try reflexivity. now destruct (Hns s). }
  split.
  - rewrite (validate_jwt_token_run E token now st st1 header _ Hh Hj).
    unfold check_token. rewrite Hk, Hd. unfold check_claims.
    now rewrite Hsub, Hsl.
  - unfold AuthUser_init. now rewrite Hsl.
Qed.

Lemma validate_jwt_token_scope_not_a_string_witness :
  validate_jwt_token
    (claims_env [("sub", JStr "u1"); ("scope", JList [JStr "bookverse:api"])]
       (net_up demo_jwks))
    "valid" 1200 warm_state
  = (Raise (HTTPException 401 "Authentication failed"
              (Some [("WWW-Authenticate", "Bearer")])),
     warm_state).
Proof.
  exact (proj1 (validate_jwt_token_scope_not_a_string
    (claims_env [("sub", JStr "u1"); ("scope", JList [JStr "bookverse:api"])]
       (net_up demo_jwks))
    "valid" 1200 warm_state warm_state
    [("alg", JStr "RS256"); ("kid", JStr "k1")] demo_jwks
    [("kid", JStr "k1"); ("kty", JStr "RSA"); ("alg", JStr "RS256")]
    [("sub", JStr "u1"); ("scope", JList [JStr "bookverse:api"])]
    (JList [JStr "bookverse:api"])
    eq_refl eq_refl eq_refl eq_refl eq_refl eq_refl eq_refl
    ltac:(discriminate))).
Defined.

(** ** Where cached documents come from *)

Section Grounded.
Context (E : Env).

Lemma served_app (tr ev : list Event) (doc : json) :
  served E tr doc -> served E (tr ++ ev) doc.
Proof.
  intros [n [url [Hn Hr]]]. exists n, url. split; [ | exact Hr].
  rewrite nth_error_app1; [exact Hn | ].
  apply nth_error_Some. congruence.
Qed.

Lemma served_last (tr : list Event) (url doc : json) :
  respond E (List.length tr) url = Some doc ->
  served E (tr ++ [HttpGet url]) doc.
Proof.
  intros Hr. exists (List.length tr), url. split; [ | exact Hr].
  rewrite nth_error_app2 by lia. now rewrite Nat.sub_diag.
Qed.

Lemma grounded_initial : caches_grounded E initial_state.
Proof.
  unfold caches_grounded. simpl. repeat split; congruence.
Qed.

Lemma grounded_clear_cache (st : State) :
  caches_grounded E (snd (clear_cache st)).
Proof.
  unfold caches_grounded. simpl. repeat split; congruence.
Qed.

Lemma grounded_get_oidc_configuration (st st' : State) (r : result json) :
  caches_grounded E st ->
  get_oidc_configuration E st = (r, st') ->
  caches_grounded E st'.
Proof.
  intros [H1 [H2 [H3 H4]]].
  destruct (is_None (_oidc_config st)) eqn:Hn.
  - apply is_None_true in Hn.
    destruct (respond E (List.length (trace st)) (discovery_url E))
      as [doc | ] eqn:Hr.
    + rewrite (get_oidc_configuration_fetched E st doc Hn Hr).
      intros [= <- <-]. unfold caches_grounded. simpl.
      split; [exact H1 | split; [ | split]].
      * intros Hj. apply served_app. now apply H2.
      * intros _. left. now apply served_last.
      * intros Ht. now apply app_eq_nil in Ht as [_ Ht].
    + rewrite (get_oidc_configuration_down E st Hn Hr).
      destruct (DEVELOPMENT_MODE E) eqn:Hdev; intros [= <- <-];
        unfold caches_grounded; simpl;
        (split; [exact H1 | split; [ | split]]).
      * intros Hj. apply served_app. now apply H2.
      * intros _. right. now split.
      * intros Ht. now apply app_eq_nil in Ht as [_ Ht].
      * intros Hj. apply served_app. now apply H2.
      * congruence.
      * intros Ht. now apply app_eq_nil in Ht as [_ Ht].
  - apply is_None_false in Hn.
    rewrite (get_oidc_configuration_cached E st Hn).
    intros [= <- <-]. unfold caches_grounded. auto.
Qed.

Lemma grounded_fetch_jwks (now : Q) (st st1 : State) (r : result unit) :
  caches_grounded E st ->
  fetch_jwks E now st = (r, st1) ->
  caches_grounded E st1.
Proof.
  intros Hg. unfold fetch_jwks. unfold bind at 1.
  destruct (get_oidc_configuration E st) as [[cfg | e] s1] eqn:Hcfg.
  - pose proof (grounded_get_oidc_configuration st s1 _ Hg Hcfg)
      as [H1 [H2 [H3 H4]]].
    run_monad.
    destruct (py_get cfg "jwks_uri") as [uri | e]; simpl.
    + destruct (truthy uri); simpl.
      * destruct (respond E (List.length (trace s1)) uri) as [doc | ] eqn:Hr;
          intros [= <- <-]; unfold caches_grounded; simpl.
        -- split; [discriminate | split; [ | split]].
           ++ intros _. now apply served_last.
           ++ intros Hc. destruct (H3 Hc) as [Hs | Hm];
                [left; now apply served_app | now right].
           ++ intros Ht. now apply app_eq_nil in Ht as [_ Ht].
        -- split; [exact H1 | split; [ | split]].
           ++ intros Hj. apply served_app. now apply H2.
           ++ intros Hc. destruct (H3 Hc) as [Hs | Hm];
                [left; now apply served_app | now right].
           ++ intros Ht. now apply app_eq_nil in Ht as [_ Ht].
      * intros [= <- <-]. unfold caches_grounded. auto.
    + intros [= <- <-]. unfold caches_grounded. auto.
  - intros [= <- <-].
    exact (grounded_get_oidc_configuration st s1 _ Hg Hcfg).
Qed.

Lemma grounded_get_jwks (now : Q) (st st' : State) (r : result json) :
  caches_grounded E st ->
  get_jwks E now st = (r, st') ->
  caches_grounded E st'.
Proof.
  intros Hg H.
  destruct (get_jwks_cases E now st st' r H)
    as [[_ [-> _]] | [_ [r0 [Hf _]]]]; [exact Hg | ].
  exact (grounded_fetch_jwks now st st' r0 Hg Hf).
Qed.

Lemma grounded_validate_jwt_token (token : string) (now : Q)
    (st st' : State) (r : result AuthUser) :
  caches_grounded E st ->
  validate_jwt_token E token now st = (r, st') ->
  caches_grounded E st'.
Proof.
  intros Hg H.
  destruct (validate_jwt_token_state E token now st st' r H)
    as [[e [_ ->]] | [header [rj [_ Hj]]]]; [exact Hg | ].
  exact (grounded_get_jwks now st st' rj Hg Hj).
Qed.

Lemma grounded_step (st : State) (o : Op) :
  caches_grounded E st -> caches_grounded E (step E st o).
Proof.
  intros Hg. destruct o as [ | t | token t | ]; simpl.
  - destruct (get_oidc_configuration E st) as [r st'] eqn:H.
    exact (grounded_get_oidc_configuration st st' r Hg H).
  - destruct (get_jwks E t st) as [r st'] eqn:H.
    exact (grounded_get_jwks t st st' r Hg H).
  - destruct (validate_jwt_token E token t st) as [r st'] eqn:H.
    exact (grounded_validate_jwt_token token t st st' r Hg H).
  - apply grounded_clear_cache.
Qed.

Lemma grounded_run_ops (ops : list Op) (st : State) :
  caches_grounded E st -> caches_grounded E (run_ops E ops st).
Proof.
  unfold run_ops. revert st.
  induction ops as [| o ops IH]; intros st Hg; simpl; [exact Hg | ].
  apply IH. now apply grounded_step.
Qed.

End Grounded.

(** X13 -- cached documents are grounded in what the network served.  In
    every state the process reaches from start-up by any sequence of calls
    of [get_oidc_configuration], [get_jwks], [validate_jwt_token] and
    [clear_cache]: a cached key set is always a document that some request
    of the trace was answered with (development mode never makes up key
    material); cached metadata is such a document too or, in development
    mode only, the mock configuration; a cached key set always has a
    timestamp; and nothing is cached before the first request. *)
Theorem reachable_caches_grounded (E : Env) (ops : list Op) :
  let st := run_ops E ops initial_state in
  (_jwks_last_updated st = None -> _jwks st = JNull)
  /\ (_jwks st <> JNull -> served E (trace st) (_jwks st))
  /\ (_oidc_config st <> JNull ->
      served E (trace st) (_oidc_config st)
      \/ (DEVELOPMENT_MODE E = true
          /\ _oidc_config st = mock_configuration E))
  /\ (trace st = [] -> _oidc_config st = JNull /\ _jwks st = JNull).
Proof.
  exact (grounded_run_ops E ops initial_state (grounded_initial E)).
Qed.

(** ** Clearing the cache, and a provider that is down *)

Lemma fetch_jwks_ok (E : Env) (now : Q) (st st1 : State) :
  fetch_jwks E now st = (Ok tt, st1) ->
  exists cfg s1 url,
    get_oidc_configuration E st = (Ok cfg, s1)
    /\ trace st1 = (trace s1 ++ [HttpGet url])%list
    /\ respond E (List.length (trace s1)) url = Some (_jwks st1).
Proof.
  unfold fetch_jwks. unfold bind at 1.
  destruct (get_oidc_configuration E st) as [[cfg | e] s1] eqn:Hcfg;
    [ | discriminate].
  run_monad.
  destruct (py_get cfg "jwks_uri") as [uri | e]; simpl; [ | discriminate].
  destruct (truthy uri); simpl; [ | discriminate].
  destruct (respond E (List.length (trace s1)) uri) as [doc | ] eqn:Hr;
    [ | discriminate].
  intros [= <-]. exists cfg, s1, uri. simpl. now repeat split.
Qed.

(** X14 -- [clear_cache] empties both caches and keeps the record of
    requests, and the next [get_jwks] starts over whatever the time: it
    makes the discovery request first and never returns the key set that
    was cached before; it returns the document its own second request was
    answered with, or raises the 503 with nothing cached. *)
Theorem clear_cache_forces_refetch (E : Env) (now : Q) (st : State) :
  let st0 := snd (clear_cache st) in
  (_oidc_config st0 = JNull /\ _jwks st0 = JNull
   /\ _jwks_last_updated st0 = None /\ trace st0 = trace st)
  /\ forall r st',
       get_jwks E now st0 = (r, st') ->
       (exists ev,
          trace st' = (trace st ++ HttpGet (discovery_url E) :: ev)%list)
       /\ ((r = Raise (HTTPException 503
                         "Authentication service unavailable" None)
            /\ _jwks st' = JNull)
           \/ (exists url,
                 r = Ok (_jwks st')
                 /\ trace st'
                    = (trace st ++ [HttpGet (discovery_url E); HttpGet url])%list
                 /\ respond E (S (List.length (trace st))) url
                    = Some (_jwks st'))).
Proof.
  intros st0. split; [now repeat split | ].
  intros r st' H.
  assert (Hdue : jwks_refresh_due E now st0 = true) by reflexivity.
  rewrite (get_jwks_due E now st0 Hdue) in H.
  destruct (fetch_jwks E now st0) as [[[] | e] s2] eqn:Hf.
  - injection H as <- <-.
    destruct (fetch_jwks_ok E now st0 s2 Hf) as [cfg [s1 [url [Hc [Ht Hr]]]]].
    pose proof (get_oidc_configuration_first E st0 s1 _ eq_refl Hc) as Ht1.
    simpl in Ht1. rewrite Ht1 in Ht, Hr.
    rewrite <- app_assoc in Ht. simpl in Ht.
    rewrite length_app in Hr. simpl in Hr. rewrite Nat.add_1_r in Hr.
    split; [now exists [HttpGet url] | ].
    right. exists url. now repeat split.
  - destruct (fetch_jwks_outcome E now st0 s2 _ Hf) as [Hj _].
    simpl in Hj. apply is_None_true in Hj as Hn. rewrite Hn in H.
    injection H as <- <-.
    split; [ | left; now split].
    destruct (fetch_jwks_steps E now st0 s2 _ Hf) as [r0 [s1 [Hc [_ Ht]]]].
    pose proof (get_oidc_configuration_first E st0 s1 _ eq_refl Hc) as Ht1.
    simpl in Ht1.
    destruct Ht as [Ht | [url Ht]]; rewrite Ht, Ht1.
    + now exists [].
    + exists [HttpGet url]. now rewrite <- app_assoc.
Qed.

Lemma clear_cache_forces_refetch_witness :
  exists url,
    trace (snd (get_jwks (demo_env false (net_up empty_jwks)) 1001
                  (snd (clear_cache warm_state))))
    = (trace warm_state
       ++ [HttpGet (discovery_url (demo_env false (net_up empty_jwks)));
           HttpGet url])%list.
Proof.
  destruct (proj2 (clear_cache_forces_refetch
                     (demo_env false (net_up empty_jwks)) 1001 warm_state)
              _ _ eq_refl) as [_ [[H _] | [url [_ [Ht _]]]]].
  - discriminate H.
  - now exists url.
Defined.

Section Outage.
Context (E : Env).
Hypothesis Hdown : all_down E.

Lemma get_jwks_down_cached (now : Q) (st : State) :
  _jwks st <> JNull ->
  exists s1, get_jwks E now st = (Ok (_jwks st), s1).
Proof.
  intros Hc. destruct (jwks_refresh_due E now st) eqn:Hdue.
  - rewrite (get_jwks_due E now st Hdue).
    destruct (fetch_jwks E now st) as [[[] | e] s1] eqn:Hf.
    + destruct (fetch_jwks_ok E now st s1 Hf) as [cfg [s0 [url [_ [_ Hr]]]]].
      rewrite Hdown in Hr. discriminate.
    + destruct (fetch_jwks_outcome E now st s1 _ Hf) as [Hj _].
      rewrite Hj. apply is_None_false in Hc. rewrite Hc. now exists s1.
  - rewrite (get_jwks_fresh E now st Hdue). now exists st.
Qed.

Lemma get_jwks_down_empty (now : Q) (st : State) :
  _jwks st = JNull ->
  exists s1, get_jwks E now st = (Raise service_unavailable, s1).
Proof.
  intros Hc.
  assert (Hdue : jwks_refresh_due E now st = true).
  { unfold jwks_refresh_due. now rewrite Hc. }
  rewrite (get_jwks_due E now st Hdue).
  destruct (fetch_jwks E now st) as [[[] | e] s1] eqn:Hf.
  - destruct (fetch_jwks_ok E now st s1 Hf) as [cfg [s0 [url [_ [_ Hr]]]]].
    rewrite Hdown in Hr. discriminate.
  - destruct (fetch_jwks_outcome E now st s1 _ Hf) as [Hj _].
    rewrite Hj, Hc. now exists s1.
Qed.

End Outage.

(** X15 -- a provider that answers no request, for a call at any time.
    While a key set is cached, however old, [get_jwks] returns it and
    leaves it cached, and a token that this set verifies is accepted: the
    header parses, key selection finds a key in the cached set,
    [jwt.decode] accepts the token with it, and the claims carry [sub] and
    the scope [bookverse:api].  With no key set cached no token is
    accepted, in development mode as in production: a token whose header
    parses gets the 401 "Authentication failed". *)
Theorem validate_jwt_token_provider_down (E : Env) (now : Q) (st : State) :
  all_down E ->
  (_jwks st <> JNull ->
   (exists st1,
      get_jwks E now st = (Ok (_jwks st), st1) /\ _jwks st1 = _jwks st)
   /\ forall token header key c scope,
        jwt_get_unverified_header E token = Ok header ->
        get_public_key header (_jwks st) = Ok key ->
        jwt_decode E token key [JWT_ALGORITHM E] (OIDC_AUDIENCE E)
          (OIDC_AUTHORITY E) = Ok c ->
        truthy (dict_get c "sub" JNull) = true ->
        lookup "scope" c = Some (JStr scope) ->
        In "bookverse:api" (str_split scope) ->
        exists u st1,
          validate_jwt_token E token now st = (Ok u, st1)
          /\ claims u = c
          /\ user_id u = dict_get c "sub" JNull
          /\ has_scope u "bookverse:api" = true)
  /\ (_jwks st = JNull ->
      forall token header,
        jwt_get_unverified_header E token = Ok header ->
        fst (validate_jwt_token E token now st)
        = Raise (HTTPException 401 "Authentication failed"
                   (Some [("WWW-Authenticate", "Bearer")]))).
Proof.
  intros Hdown. split.
  - intros Hc.
    destruct (get_jwks_down_cached E Hdown now st Hc) as [s1 H1].
    split.
    + exists s1. split; [exact H1 | ].
      exact (get_jwks_returns_cache E now st s1 _ H1).
    + intros token header key c scope Hh Hk Hd Hsub Hscope Hin.
      assert (Hsl : scope_list c = Ok (str_split scope)).
      { unfold scope_list, dict_get. rewrite Hscope. simpl.
        pose proof (str_split_nonempty _ _ Hin) as Hne.
        apply String.eqb_neq in Hne. now rewrite Hne. }
      assert (Hhas : str_in "bookverse:api" (str_split scope) = true)
        by now apply str_in_In.
      rewrite (validate_jwt_token_run E token now st s1 header _ Hh H1).
      unfold check_token. rewrite Hk, Hd.
      unfold check_claims. rewrite Hsub, Hsl, Hhas. simpl.
      unfold AuthUser_init. rewrite Hsl. simpl.
      eexists. exists s1. split; [reflexivity | ]. simpl.
      repeat split. exact Hhas.
  - intros Hc token header Hh.
    destruct (get_jwks_down_empty E Hdown now st Hc) as [s1 H1].
    now rewrite (validate_jwt_token_run E token now st s1 header _ Hh H1).
Qed.

Lemma validate_jwt_token_provider_down_witness :
  fst (validate_jwt_token (demo_env true net_down) "valid" 1000
         initial_state)
  = Raise (HTTPException 401 "Authentication failed"
             (Some [("WWW-Authenticate", "Bearer")]))
  /\ exists u st1,
       validate_jwt_token (demo_env true net_down) "valid" 999999 warm_state
       = (Ok u, st1)
       /\ user_id u = JStr "u1".
Proof.
  split.
  - exact (proj2 (validate_jwt_token_provider_down (demo_env true net_down)
                    1000 initial_state (fun _ _ => eq_refl))
             eq_refl "valid" _ eq_refl).
  - destruct (proj2 (proj1 (validate_jwt_token_provider_down
                              (demo_env true net_down) 999999 warm_state
                              (fun _ _ => eq_refl))
                       ltac:(discriminate))
                "valid"
                [("alg", JStr "RS256"); ("kid", JStr "k1")]
                [("kid", JStr "k1"); ("kty", JStr "RSA");
                 ("alg", JStr "RS256")]
                (demo_claims "valid") "bookverse:api"
                eq_refl eq_refl eq_refl eq_refl eq_refl
                (or_introl eq_refl))
      as [u [st1 [Hv [_ [Hid _]]]]].
    exists u, st1. split; assumption.
Defined.

(** ** The refresh step with metadata at hand *)

Lemma jwks_uri_of_cached (E : Env) (st : State) (d : dict) :
  _oidc_config st = JObj d ->
  get_oidc_configuration E st = (Ok (JObj d), st).
Proof.
  intros Hd.
  assert (Hne : _oidc_config st <> JNull) by (rewrite Hd; discriminate).
  rewrite (get_oidc_configuration_cached E st Hne). now rewrite Hd.
Qed.

(** X16 -- a refresh with cached metadata is one request to the metadata's
    own [jwks_uri].  When the refresh is due and the cached metadata names a
    JWKS endpoint, [get_jwks] makes exactly one request, to that URL.  If it
    is answered, the answer is returned and cached, stamped with the time of
    the call, and the metadata stays as it was; if it fails, nothing but the
    trace changes, and the call returns the key set cached before or, when
    there is none, raises the 503. *)
Theorem get_jwks_refresh_with_metadata (E : Env) (now : Q) (st : State)
    (d : dict) (uri : json) :
  _oidc_config st = JObj d ->
  lookup "jwks_uri" d = Some uri ->
  truthy uri = true ->
  jwks_refresh_due E now st = true ->
  (forall doc,
     respond E (List.length (trace st)) uri = Some doc ->
     get_jwks E now st
     = (Ok doc,
        {| _oidc_config := _oidc_config st; _jwks := doc;
           _jwks_last_updated := Some now;
           trace := trace st ++ [HttpGet uri] |}))
  /\ (respond E (List.length (trace st)) uri = None ->
      get_jwks E now st
      = (if is_None (_jwks st)
         then Raise (HTTPException 503 "Authentication service unavailable"
                       None)
         else Ok (_jwks st),
         {| _oidc_config := _oidc_config st; _jwks := _jwks st;
            _jwks_last_updated := _jwks_last_updated st;
            trace := trace st ++ [HttpGet uri] |})).
Proof.
  intros Hd Hu Ht Hdue.
  assert (Hf : fetch_jwks E now st
               = match respond E (List.length (trace st)) uri with
                 | Some doc =>
                     (Ok tt,
                      {| _oidc_config := _oidc_config st; _jwks := doc;
                         _jwks_last_updated := Some now;
                         trace := trace st ++ [HttpGet uri] |})
                 | None =>
                     (Raise RequestException,
                      {| _oidc_config := _oidc_config st; _jwks := _jwks st;
                         _jwks_last_updated := _jwks_last_updated st;
                         trace := trace st ++ [HttpGet uri] |})
                 end).
  { unfold fetch_jwks. unfold bind at 1.
    rewrite (jwks_uri_of_cached E st d Hd). run_monad. simpl.
    unfold dict_get. rewrite Hu, Ht. simpl.
    destruct (respond E (List.length (trace st)) uri); reflexivity. }
  rewrite (get_jwks_due E now st Hdue), Hf. split.
  - intros doc Hr. now rewrite Hr.
  - intros Hr. rewrite Hr. simpl. destruct (is_None (_jwks st)); reflexivity.
Qed.

Lemma get_jwks_refresh_with_metadata_witness :
  get_jwks (demo_env false (net_up empty_jwks)) 5000 warm_state
  = (Ok empty_jwks,
     {| _oidc_config := demo_metadata; _jwks := empty_jwks;
        _jwks_last_updated := Some 5000;
        trace := trace warm_state ++ [HttpGet demo_jwks_uri] |}).
Proof.
  exact (proj1 (get_jwks_refresh_with_metadata
                  (demo_env false (net_up empty_jwks)) 5000 warm_state
                  [("issuer", JStr demo_authority);
                   ("jwks_uri", demo_jwks_uri)]
                  demo_jwks_uri eq_refl eq_refl eq_refl eq_refl)
           empty_jwks eq_refl).
Defined.

(** X17 -- metadata that names no JWKS endpoint makes every refresh fail
    before the network is reached.  When the cached metadata is an object
    without [jwks_uri] (or with a falsy one), a due refresh leaves the state
    untouched, makes no request, and [get_jwks] returns the key set cached
    before or, when there is none, raises the 503. *)
Theorem get_jwks_without_jwks_uri (E : Env) (now : Q) (st : State)
    (d : dict) :
  _oidc_config st = JObj d ->
  truthy (dict_get d "jwks_uri" JNull) = false ->
  jwks_refresh_due E now st = true ->
  get_jwks E now st
  = (if is_None (_jwks st)
     then Raise (HTTPException 503 "Authentication service unavailable" None)
     else Ok (_jwks st),
     st).
Proof.
  intros Hd Hu Hdue.
  assert (Hf : fetch_jwks E now st
               = (Raise (ValueError "No jwks_uri found in OIDC configuration"
                           None), st)).
  { unfold fetch_jwks. unfold bind at 1.
    rewrite (jwks_uri_of_cached E st d Hd). run_monad. simpl.
    now rewrite Hu. }
  rewrite (get_jwks_due E now st Hdue), Hf.
  destruct (is_None (_jwks st)); reflexivity.
Qed.

Lemma get_jwks_without_jwks_uri_witness :
  get_jwks (demo_env false (net_up demo_jwks)) 1000
    {| _oidc_config := JObj [("issuer", JStr demo_authority)];
       _jwks := JNull; _jwks_last_updated := None;
       trace := [HttpGet (discovery_url (demo_env false (net_up demo_jwks)))]
    |}
  = (Raise (HTTPException 503 "Authentication service unavailable" None),
     {| _oidc_config := JObj [("issuer", JStr demo_authority)];
        _jwks := JNull; _jwks_last_updated := None;
        trace := [HttpGet (discovery_url (demo_env false (net_up demo_jwks)))]
     |}).
Proof.
  exact (get_jwks_without_jwks_uri (demo_env false (net_up demo_jwks)) 1000
           {| _oidc_config := JObj [("issuer", JStr demo_authority)];
              _jwks := JNull; _jwks_last_updated := None;
              trace := [HttpGet (discovery_url
                                   (demo_env false (net_up demo_jwks)))] |}
           [("issuer", JStr demo_authority)] eq_refl eq_refl eq_refl).
Defined.

(** X18 -- a discovery endpoint that answers with JSON [null] is not
    memoized: on an empty metadata cache the call returns [None] without
    raising and leaves the cache empty, so the next call makes a discovery
    request again; and [get_jwks] on top of it raises the 503 when no key
    set is cached. *)
Theorem discovery_null_not_memoized (E : Env) (st : State) :
  _oidc_config st = JNull ->
  respond E (List.length (trace st)) (discovery_url E) = Some JNull ->
  exists st1,
    get_oidc_configuration E st = (Ok JNull, st1)
    /\ _oidc_config st1 = JNull
    /\ trace st1 = (trace st ++ [HttpGet (discovery_url E)])%list
    /\ (forall r st2,
          get_oidc_configuration E st1 = (r, st2) ->
          trace st2
          = (trace st ++ [HttpGet (discovery_url E);
                          HttpGet (discovery_url E)])%list)
    /\ (_jwks st = JNull ->
        forall now,
          get_jwks E now st
          = (Raise (HTTPException 503 "Authentication service unavailable"
                      None), st1)).
Proof.
  intros Hc Hr.
  pose proof (get_oidc_configuration_fetched E st JNull Hc Hr) as H.
  eexists. split; [exact H | ]. simpl. repeat split.
  - intros r st2 H2.
    apply get_oidc_configuration_first in H2; [ | reflexivity].
    simpl in H2. rewrite H2. now rewrite <- app_assoc.
  - intros Hj now.
    assert (Hdue : jwks_refresh_due E now st = true).
    { unfold jwks_refresh_due. now rewrite Hj. }
    rewrite (get_jwks_due E now st Hdue).
    unfold fetch_jwks. unfold bind at 1. rewrite H. run_monad. simpl.
    now rewrite Hj.
Qed.

Lemma discovery_null_not_memoized_witness :
  exists st1,
    get_oidc_configuration (demo_env true (fun _ _ => Some JNull))
      initial_state
    = (Ok JNull, st1)
    /\ _oidc_config st1 = JNull.
Proof.
  destruct (discovery_null_not_memoized
              (demo_env true (fun _ _ => Some JNull)) initial_state
              eq_refl eq_refl) as [st1 [H1 [H2 _]]].
  exists st1. now split.
Defined.
